(** * go-runtime-metrics: the [collector] package

    A shallow embedding of [src/collector/collector.go] and the properties
    of its sampler: construction defaults, the collection cycle, the
    one-off accessor, the continuous loop, the recent-pause index and the
    flat key-value form of a snapshot.

    Conventions.
    - Go's [int], [int64], [uint32], [uint64] and [time.Duration] are [Z];
      every conversion and every wrap-around of the source is written out
      ([int64], [uint32] below).
    - Go's [float64] is Rocq's primitive binary64 [float]; the source only
      copies the GC CPU fraction, it never computes with it.
    - The runtime package is an external collaborator: what it reports at
      the instant of one collection cycle is a [runtime.Reading].
    - The consumer callback runs in a world [W] of its own (whatever the
      closure captured); the sampler never looks inside [W].
    - [Run] is driven by the events that can wake its select, in the
      order the select takes them: deliveries of a ticker and closes of
      a channel. A cycle takes no time: the ticker finds [Run] waiting at
      every delivery.
    - [c.mu] brackets the body of [outputStats] and the read-and-reset of
      [OneOff]; the embedding is sequential, so each body is one atomic
      transition and the lock itself is not represented. *)

From Stdlib Require Import ZArith Lia List Floats.PrimFloat.
From stdpp Require Import base option list strings gmap.
Import ListNotations.

Local Open Scope Z_scope.

(** ** Machine integers *)

(** Go's conversion [int64(x)]: the two's-complement value of the low 64
    bits. On a [uint64] below [2^63] it is the identity; above, it wraps
    to a negative number. *)
Definition int64 (z : Z) : Z := (z + 2 ^ 63) mod 2 ^ 64 - 2 ^ 63.

(** Arithmetic on [uint32] wraps modulo [2^32]. *)
Definition uint32 (z : Z) : Z := z mod 2 ^ 32.

(** ** The runtime collaborator *)

Module runtime.

(** The fields of [runtime.MemStats] the collector reads. All are
    [uint64], except [NumGC] ([uint32]), [PauseNs] ([[256]uint64]) and
    [GCCPUFraction] ([float64]). *)
Record MemStats : Type := {
  Alloc : Z;
  TotalAlloc : Z;
  Sys : Z;
  Lookups : Z;
  Mallocs : Z;
  Frees : Z;
  HeapAlloc : Z;
  HeapSys : Z;
  HeapIdle : Z;
  HeapInuse : Z;
  HeapReleased : Z;
  HeapObjects : Z;
  StackInuse : Z;
  StackSys : Z;
  MSpanInuse : Z;
  MSpanSys : Z;
  MCacheInuse : Z;
  MCacheSys : Z;
  OtherSys : Z;
  GCSys : Z;
  NextGC : Z;
  LastGC : Z;
  PauseTotalNs : Z;
  PauseNs : list Z;
  NumGC : Z;
  GCCPUFraction : float
}.

(** What the runtime answers during one collection cycle:
    [runtime.NumGoroutine()], [runtime.NumCgoCall()] and the record
    filled by [runtime.ReadMemStats]. *)
Record Reading : Type := {
  NumGoroutine : Z;
  NumCgoCall : Z;
  ReadMemStats : MemStats
}.

(** Modelled from the spec: the runtime's own writer of the recent-pause
    history is not part of this repository. The spec describes a
    circular buffer of exactly 256 slots and a GC-cycle counter that
    only increases; the runtime stores the pause of the cycle that is
    finishing in slot [NumGC mod 256] and then increments [NumGC]
    (a [uint32]). *)
Definition recordPause (pause : Z) (m : MemStats) : MemStats :=
  {| Alloc := Alloc m; TotalAlloc := TotalAlloc m; Sys := Sys m;
     Lookups := Lookups m; Mallocs := Mallocs m; Frees := Frees m;
     HeapAlloc := HeapAlloc m; HeapSys := HeapSys m;
     HeapIdle := HeapIdle m; HeapInuse := HeapInuse m;
     HeapReleased := HeapReleased m; HeapObjects := HeapObjects m;
     StackInuse := StackInuse m; StackSys := StackSys m;
     MSpanInuse := MSpanInuse m; MSpanSys := MSpanSys m;
     MCacheInuse := MCacheInuse m; MCacheSys := MCacheSys m;
     OtherSys := OtherSys m; GCSys := GCSys m; NextGC := NextGC m;
     LastGC := LastGC m;
     PauseTotalNs := (PauseTotalNs m + pause) mod 2 ^ 64;
     PauseNs := <[Z.to_nat (NumGC m mod 256) := pause]> (PauseNs m);
     NumGC := uint32 (NumGC m + 1);
     GCCPUFraction := GCCPUFraction m |}.

(** Several GC cycles in a row, oldest first. *)
Definition recordPauses (pauses : list Z) (m : MemStats) : MemStats :=
  fold_left (fun acc p => recordPause p acc) pauses m.

End runtime.

(** ** The time library *)

Module time.

(** [time.Duration] counts nanoseconds in an [int64]. *)
Definition Nanosecond : Z := 1.
Definition Microsecond : Z := 1000 * Nanosecond.
Definition Millisecond : Z := 1000 * Microsecond.
Definition Second : Z := 1000 * Millisecond.

(** A ticker is known by the period it was created with. *)
Record Ticker : Type := { period : Z }.

#[global] Instance Ticker_eq_dec : EqDecision Ticker.
Proof. solve_decision. Defined.

(** Modelled from the spec: the periodic-tick primitive belongs to the
    time library, not to this repository. The spec requires the
    interval to be positive; [time.NewTicker] enforces exactly that, it
    panics ([None]) on a duration that is zero or negative. *)
Definition NewTicker (d : Z) : option Ticker :=
  if d <=? 0 then None else Some {| period := d |}.

(** Modelled from the spec: a ticker is "a recurring wake-up at fixed
    intervals". The ticker [t], created at time 0, delivers on its
    channel at the times [period t], [2 * period t], ...; [firings t
    elapsed] lists, in order, the deliveries of the first [elapsed]
    nanoseconds. A receiver that is waiting takes each of them. *)
Definition firings (t : Ticker) (elapsed : Z) : list Z :=
  map (fun i => Z.of_nat i * period t)
    (seq 1 (Z.to_nat (elapsed / period t))).

End time.

(** ** The snapshot *)

(** [type Fields struct]: 27 signed 64-bit counters and one float. *)
Record Fields : Type := {
  (* CPU *)
  NumGoroutine : Z;
  NumCgoCall : Z;
  (* General *)
  Alloc : Z;
  TotalAlloc : Z;
  Sys : Z;
  Lookups : Z;
  Mallocs : Z;
  Frees : Z;
  (* Heap *)
  HeapAlloc : Z;
  HeapSys : Z;
  HeapIdle : Z;
  HeapInuse : Z;
  HeapReleased : Z;
  HeapObjects : Z;
  (* Stack *)
  StackInuse : Z;
  StackSys : Z;
  MSpanInuse : Z;
  MSpanSys : Z;
  MCacheInuse : Z;
  MCacheSys : Z;
  OtherSys : Z;
  (* GC *)
  GCSys : Z;
  NextGC : Z;
  LastGC : Z;
  PauseTotalNs : Z;
  PauseNs : Z;
  NumGC : Z;
  GCCPUFraction : float
}.

(** The zero value [Fields{}]. *)
Definition Fields_zero : Fields :=
  {| NumGoroutine := 0; NumCgoCall := 0;
     Alloc := 0; TotalAlloc := 0; Sys := 0; Lookups := 0; Mallocs := 0;
     Frees := 0;
     HeapAlloc := 0; HeapSys := 0; HeapIdle := 0; HeapInuse := 0;
     HeapReleased := 0; HeapObjects := 0;
     StackInuse := 0; StackSys := 0; MSpanInuse := 0; MSpanSys := 0;
     MCacheInuse := 0; MCacheSys := 0; OtherSys := 0;
     GCSys := 0; NextGC := 0; LastGC := 0; PauseTotalNs := 0; PauseNs := 0;
     NumGC := 0; GCCPUFraction := 0%float |}.

(** The fields of each category, in declaration order. *)
Definition cpuFields (f : Fields) : list Z :=
  [NumGoroutine f; NumCgoCall f].

Definition memFields (f : Fields) : list Z :=
  [Alloc f; TotalAlloc f; Sys f; Lookups f; Mallocs f; Frees f;
   HeapAlloc f; HeapSys f; HeapIdle f; HeapInuse f; HeapReleased f;
   HeapObjects f;
   StackInuse f; StackSys f; MSpanInuse f; MSpanSys f; MCacheInuse f;
   MCacheSys f; OtherSys f].

Definition gcFields (f : Fields) : list Z * float :=
  ([GCSys f; NextGC f; LastGC f; PauseTotalNs f; PauseNs f; NumGC f],
   GCCPUFraction f).

Module cpuStats.
(** [type cpuStats struct] *)
Record t : Type := { NumGoroutine : Z; NumCgoCall : Z }.
End cpuStats.

(** ** The sampler *)

(** A channel is known by its identity; [Done] is [None] for Go's nil
    channel. *)
Definition chan : Type := nat.

Section Sampler.

(** The consumer's own state. *)
Context {W : Type}.

(** [type FieldsFunc func(Fields)]. The callee owns its parameter, a
    copy of the caller's struct ([Fields] holds scalars only): the
    function maps that copy and its world to whatever the parameter
    holds when it returns and to the new world. *)
Definition FieldsFunc : Type := Fields -> W -> Fields * W.

(** [type Collector struct]. A Go function value may be nil, hence the
    [option] on [fieldsFunc]. *)
Record Collector : Type := {
  PauseDur : Z;
  EnableCPU : bool;
  EnableMem : bool;
  EnableGC : bool;
  Done : option chan;
  fieldsFunc : option FieldsFunc;
  fields : Fields
}.

(** Assignment to one field of [*c]. *)
Definition set_fields (f : Fields) (c : Collector) : Collector :=
  {| PauseDur := PauseDur c; EnableCPU := EnableCPU c;
     EnableMem := EnableMem c; EnableGC := EnableGC c; Done := Done c;
     fieldsFunc := fieldsFunc c; fields := f |}.

Definition set_PauseDur (d : Z) (c : Collector) : Collector :=
  {| PauseDur := d; EnableCPU := EnableCPU c;
     EnableMem := EnableMem c; EnableGC := EnableGC c; Done := Done c;
     fieldsFunc := fieldsFunc c; fields := fields c |}.

Definition set_EnableCPU (b : bool) (c : Collector) : Collector :=
  {| PauseDur := PauseDur c; EnableCPU := b;
     EnableMem := EnableMem c; EnableGC := EnableGC c; Done := Done c;
     fieldsFunc := fieldsFunc c; fields := fields c |}.

Definition set_EnableMem (b : bool) (c : Collector) : Collector :=
  {| PauseDur := PauseDur c; EnableCPU := EnableCPU c;
     EnableMem := b; EnableGC := EnableGC c; Done := Done c;
     fieldsFunc := fieldsFunc c; fields := fields c |}.

Definition set_EnableGC (b : bool) (c : Collector) : Collector :=
  {| PauseDur := PauseDur c; EnableCPU := EnableCPU c;
     EnableMem := EnableMem c; EnableGC := b; Done := Done c;
     fieldsFunc := fieldsFunc c; fields := fields c |}.

Definition set_Done (d : option chan) (c : Collector) : Collector :=
  {| PauseDur := PauseDur c; EnableCPU := EnableCPU c;
     EnableMem := EnableMem c; EnableGC := EnableGC c; Done := d;
     fieldsFunc := fieldsFunc c; fields := fields c |}.

(** [func(Fields) {}] *)
Definition noop : FieldsFunc := fun f w => (f, w).

(** [func New(fieldsFunc FieldsFunc) *Collector] *)
Definition New (fieldsFunc : option FieldsFunc) : Collector :=
  let fieldsFunc :=
    match fieldsFunc with
    | None => Some noop
    | Some k => Some k
    end in
  {| PauseDur := 10 * time.Second;
     EnableCPU := true;
     EnableMem := true;
     EnableGC := true;
     Done := None;
     fieldsFunc := fieldsFunc;
     fields := Fields_zero |}.

(** [func (c *Collector) outputCPUStats(s *cpuStats)] *)
Definition outputCPUStats (s : cpuStats.t) (c : Collector) : Collector :=
  let f := fields c in
  set_fields
    {| NumGoroutine := int64 (cpuStats.NumGoroutine s);
       NumCgoCall := int64 (cpuStats.NumCgoCall s);
       Alloc := Alloc f; TotalAlloc := TotalAlloc f; Sys := Sys f;
       Lookups := Lookups f; Mallocs := Mallocs f; Frees := Frees f;
       HeapAlloc := HeapAlloc f; HeapSys := HeapSys f;
       HeapIdle := HeapIdle f; HeapInuse := HeapInuse f;
       HeapReleased := HeapReleased f; HeapObjects := HeapObjects f;
       StackInuse := StackInuse f; StackSys := StackSys f;
       MSpanInuse := MSpanInuse f; MSpanSys := MSpanSys f;
       MCacheInuse := MCacheInuse f; MCacheSys := MCacheSys f;
       OtherSys := OtherSys f;
       GCSys := GCSys f; NextGC := NextGC f; LastGC := LastGC f;
       PauseTotalNs := PauseTotalNs f; PauseNs := PauseNs f;
       NumGC := NumGC f; GCCPUFraction := GCCPUFraction f |} c.

(** [func (c *Collector) outputMemStats(m *runtime.MemStats)] *)
Definition outputMemStats (m : runtime.MemStats) (c : Collector)
  : Collector :=
  let f := fields c in
  set_fields
    {| NumGoroutine := NumGoroutine f; NumCgoCall := NumCgoCall f;
       (* General *)
       Alloc := int64 (runtime.Alloc m);
       TotalAlloc := int64 (runtime.TotalAlloc m);
       Sys := int64 (runtime.Sys m);
       Lookups := int64 (runtime.Lookups m);
       Mallocs := int64 (runtime.Mallocs m);
       Frees := int64 (runtime.Frees m);
       (* Heap *)
       HeapAlloc := int64 (runtime.HeapAlloc m);
       HeapSys := int64 (runtime.HeapSys m);
       HeapIdle := int64 (runtime.HeapIdle m);
       HeapInuse := int64 (runtime.HeapInuse m);
       HeapReleased := int64 (runtime.HeapReleased m);
       HeapObjects := int64 (runtime.HeapObjects m);
       (* Stack *)
       StackInuse := int64 (runtime.StackInuse m);
       StackSys := int64 (runtime.StackSys m);
       MSpanInuse := int64 (runtime.MSpanInuse m);
       MSpanSys := int64 (runtime.MSpanSys m);
       MCacheInuse := int64 (runtime.MCacheInuse m);
       MCacheSys := int64 (runtime.MCacheSys m);
       OtherSys := int64 (runtime.OtherSys m);
       GCSys := GCSys f; NextGC := NextGC f; LastGC := LastGC f;
       PauseTotalNs := PauseTotalNs f; PauseNs := PauseNs f;
       NumGC := NumGC f; GCCPUFraction := GCCPUFraction f |} c.

(** The index [(m.NumGC+255)%256] of [outputGCStats]; [m.NumGC] is a
    [uint32], so the sum wraps before the remainder is taken. *)
Definition pauseIndex (numGC : Z) : Z := uint32 (numGC + 255) mod 256.

(** [m.PauseNs[i]]: the array has 256 slots. *)
Definition PauseNs_at (m : runtime.MemStats) (i : Z) : Z :=
  nth (Z.to_nat i) (runtime.PauseNs m) 0.

(** [func (c *Collector) outputGCStats(m *runtime.MemStats)] *)
Definition outputGCStats (m : runtime.MemStats) (c : Collector)
  : Collector :=
  let f := fields c in
  set_fields
    {| NumGoroutine := NumGoroutine f; NumCgoCall := NumCgoCall f;
       Alloc := Alloc f; TotalAlloc := TotalAlloc f; Sys := Sys f;
       Lookups := Lookups f; Mallocs := Mallocs f; Frees := Frees f;
       HeapAlloc := HeapAlloc f; HeapSys := HeapSys f;
       HeapIdle := HeapIdle f; HeapInuse := HeapInuse f;
       HeapReleased := HeapReleased f; HeapObjects := HeapObjects f;
       StackInuse := StackInuse f; StackSys := StackSys f;
       MSpanInuse := MSpanInuse f; MSpanSys := MSpanSys f;
       MCacheInuse := MCacheInuse f; MCacheSys := MCacheSys f;
       OtherSys := OtherSys f;
       GCSys := int64 (runtime.GCSys m);
       NextGC := int64 (runtime.NextGC m);
       LastGC := int64 (runtime.LastGC m);
       PauseTotalNs := int64 (runtime.PauseTotalNs m);
       PauseNs := int64 (PauseNs_at m (pauseIndex (runtime.NumGC m)));
       NumGC := int64 (runtime.NumGC m);
       GCCPUFraction := runtime.GCCPUFraction m |} c.

(** The state a call runs in: the collector and the consumer's world. *)
Definition state : Type := Collector * W.

(** How a call ends: it returns a value, it panics, or (for [Run]) it
    is still blocked in its [select] when the events run out. *)
Inductive result (A : Type) : Type :=
| Returns (a : A) (s : state)
| Panics (s : state)
| Blocks (s : state).
Global Arguments Returns {A} a s.
Global Arguments Panics {A} s.
Global Arguments Blocks {A} s.

(** The writes of one cycle, lines 92 to 106 of [outputStats]: every
    enabled category is refreshed from the runtime. *)
Definition collect (rt : runtime.Reading) (c : Collector) : Collector :=
  let c :=
    if EnableCPU c then
      let cStats :=
        {| cpuStats.NumGoroutine := int64 (runtime.NumGoroutine rt);
           cpuStats.NumCgoCall := int64 (runtime.NumCgoCall rt) |} in
      outputCPUStats cStats c
    else c in
  if EnableMem c then
    let m := runtime.ReadMemStats rt in
    let c := outputMemStats m c in
    if EnableGC c then outputGCStats m c else c
  else c.

(** [func (c *Collector) outputStats()]: the writes, then
    [c.fieldsFunc(c.fields)]. Calling a nil function value panics. *)
Definition outputStats (rt : runtime.Reading) (s : state) : result unit :=
  let '(c, w) := s in
  let c := collect rt c in
  match fieldsFunc c with
  | Some k => let '(_, w) := k (fields c) w in Returns tt (c, w)
  | None => Panics (c, w)
  end.

(** [func (c *Collector) OneOff() Fields]. The operand of [return] is
    copied before the deferred function resets [c.fields]. When
    [outputStats] panics the deferred reset has not been registered. *)
Definition OneOff (rt : runtime.Reading) (s : state) : result Fields :=
  match outputStats rt s with
  | Returns _ (c, w) => Returns (fields c) (set_fields Fields_zero c, w)
  | Panics s => Panics s
  | Blocks s => Blocks s
  end.

(** What can wake a [select]: a ticker [t] delivers on its channel [t.C]
    (the runtime reading is the one a cycle started now will see), or
    somebody closes a channel. *)
Inductive event : Type :=
| Tick (t : time.Ticker) (rt : runtime.Reading)
| Close (ch : chan).

(** The [for { select { ... } }] of [Run], with the ticker [tick] that
    [Run] created. A receive from [c.Done] proceeds only when [c.Done]
    is the channel that was closed; on a nil channel it never does. A
    receive from [tick.C] proceeds only on a delivery of [tick] itself. *)
Fixpoint loop (tick : time.Ticker) (events : list event) (s : state)
  : result unit :=
  match events with
  | [] => Blocks s
  | Close ch :: events =>
      if decide (Done (fst s) = Some ch) then Returns tt s
      else loop tick events s
  | Tick t rt :: events =>
      if decide (t = tick) then
        match outputStats rt s with
        | Returns _ s => loop tick events s
        | Panics s => Panics s
        | Blocks s => Blocks s
        end
      else loop tick events s
  end.

(** [func (c *Collector) Run()]: [rt] is the runtime reading of the
    first cycle. *)
Definition Run (rt : runtime.Reading) (events : list event) (s : state)
  : result unit :=
  match outputStats rt s with
  | Returns _ s =>
      match time.NewTicker (PauseDur (fst s)) with
      | Some tick => loop tick events s
      | None => Panics s
      end
  | Panics s => Panics s
  | Blocks s => Blocks s
  end.

End Sampler.

Arguments FieldsFunc W : clear implicits.
Arguments Collector W : clear implicits.
Arguments state W : clear implicits.
Arguments result W A : clear implicits.
Arguments event : clear implicits.

(** One collection-and-dispatch cycle as a function of the state, for a
    collector whose consumer is [k]: the writes of [collect], then one
    application of [k] to the snapshot; what [k] left in its parameter is
    dropped. *)
Definition cycle {W} (k : FieldsFunc W) (rt : runtime.Reading)
  (s : state W) : state W :=
  let c := collect rt (fst s) in
  (c, snd (k (fields c) (snd s))).

(** Several cycles in a row, one per runtime reading. *)
Definition cycles {W} (k : FieldsFunc W) (rts : list runtime.Reading)
  (s : state W) : state W :=
  fold_left (fun s rt => cycle k rt s) rts s.

(** The value a call returned, if it did return. *)
Definition returned {W A} (r : result W A) : option A :=
  match r with
  | Returns a _ => Some a
  | _ => None
  end.

(** The state a call ended in. *)
Definition final {W A} (r : result W A) : state W :=
  match r with
  | Returns _ s | Panics s | Blocks s => s
  end.

(** A consumer that appends every snapshot it is handed to a log and then
    overwrites its own parameter with [mutate]. *)
Definition recording (mutate : Fields -> Fields) : FieldsFunc (list Fields) :=
  fun f log => (mutate f, log ++ [f]).

(** ** The flat key-value form *)

(** The dynamic values of the [map[string]interface{}]: an [int64] or a
    [float64]. *)
Inductive Value : Type :=
| VInt64 (z : Z)
| VFloat64 (x : float).

(** [func (f *Fields) ToMap() map[string]interface{}] *)
Definition ToMap (f : Fields) : gmap string Value :=
  list_to_map
    [ ("cpu.goroutines", VInt64 (NumGoroutine f));
      ("cpu.cgo_calls", VInt64 (NumCgoCall f));

      ("mem.alloc", VInt64 (Alloc f));
      ("mem.total", VInt64 (TotalAlloc f));
      ("mem.sys", VInt64 (Sys f));
      ("mem.lookups", VInt64 (Lookups f));
      ("mem.malloc", VInt64 (Mallocs f));
      ("mem.frees", VInt64 (Frees f));

      ("mem.heap.alloc", VInt64 (HeapAlloc f));
      ("mem.heap.sys", VInt64 (HeapSys f));
      ("mem.heap.idle", VInt64 (HeapIdle f));
      ("mem.heap.inuse", VInt64 (HeapInuse f));
      ("mem.heap.released", VInt64 (HeapReleased f));
      ("mem.heap.objects", VInt64 (HeapObjects f));

      ("mem.stack.inuse", VInt64 (StackInuse f));
      ("mem.stack.sys", VInt64 (StackSys f));
      ("mem.stack.mspan_inuse", VInt64 (MSpanInuse f));
      ("mem.stack.mspan_sys", VInt64 (MSpanSys f));
      ("mem.stack.mcache_inuse", VInt64 (MCacheInuse f));
      ("mem.stack.mcache_sys", VInt64 (MCacheSys f));
      ("mem.othersys", VInt64 (OtherSys f));

      ("mem.gc.sys", VInt64 (GCSys f));
      ("mem.gc.next", VInt64 (NextGC f));
      ("mem.gc.last", VInt64 (LastGC f));
      ("mem.gc.pause_total", VInt64 (PauseTotalNs f));
      ("mem.gc.pause", VInt64 (PauseNs f));
      ("mem.gc.count", VInt64 (NumGC f));
      ("mem.gc.cpu_fraction", VFloat64 (GCCPUFraction f)) ].

(** The struct declaration of [Fields] read as a table: the [json] tag of
    every field, in declaration order, with the field's value boxed at
    its declared type. *)
Definition Fields_tags : list (string * (Fields -> Value)) :=
  [ ("cpu.goroutines", fun f => VInt64 (NumGoroutine f));
    ("cpu.cgo_calls", fun f => VInt64 (NumCgoCall f));
    ("mem.alloc", fun f => VInt64 (Alloc f));
    ("mem.total", fun f => VInt64 (TotalAlloc f));
    ("mem.sys", fun f => VInt64 (Sys f));
    ("mem.lookups", fun f => VInt64 (Lookups f));
    ("mem.malloc", fun f => VInt64 (Mallocs f));
    ("mem.frees", fun f => VInt64 (Frees f));
    ("mem.heap.alloc", fun f => VInt64 (HeapAlloc f));
    ("mem.heap.sys", fun f => VInt64 (HeapSys f));
    ("mem.heap.idle", fun f => VInt64 (HeapIdle f));
    ("mem.heap.inuse", fun f => VInt64 (HeapInuse f));
    ("mem.heap.released", fun f => VInt64 (HeapReleased f));
    ("mem.heap.objects", fun f => VInt64 (HeapObjects f));
    ("mem.stack.inuse", fun f => VInt64 (StackInuse f));
    ("mem.stack.sys", fun f => VInt64 (StackSys f));
    ("mem.stack.mspan_inuse", fun f => VInt64 (MSpanInuse f));
    ("mem.stack.mspan_sys", fun f => VInt64 (MSpanSys f));
    ("mem.stack.mcache_inuse", fun f => VInt64 (MCacheInuse f));
    ("mem.stack.mcache_sys", fun f => VInt64 (MCacheSys f));
    ("mem.othersys", fun f => VInt64 (OtherSys f));
    ("mem.gc.sys", fun f => VInt64 (GCSys f));
    ("mem.gc.next", fun f => VInt64 (NextGC f));
    ("mem.gc.last", fun f => VInt64 (LastGC f));
    ("mem.gc.pause_total", fun f => VInt64 (PauseTotalNs f));
    ("mem.gc.pause", fun f => VInt64 (PauseNs f));
    ("mem.gc.count", fun f => VInt64 (NumGC f));
    ("mem.gc.cpu_fraction", fun f => VFloat64 (GCCPUFraction f)) ].

(** Reading one entry back at its declared type. *)
Definition getInt64 (m : gmap string Value) (key : string) : option Z :=
  match m !! key with
  | Some (VInt64 z) => Some z
  | _ => None
  end.

Definition getFloat64 (m : gmap string Value) (key : string) : option float :=
  match m !! key with
  | Some (VFloat64 x) => Some x
  | _ => None
  end.

(** The way back of the spec's round trip. The source has no such
    function: this one follows the spec's words, every field is read from
    the entry that carries its name. *)
Definition fromMap (m : gmap string Value) : option Fields :=
  a1 ← getInt64 m "cpu.goroutines";
  a2 ← getInt64 m "cpu.cgo_calls";
  b1 ← getInt64 m "mem.alloc";
  b2 ← getInt64 m "mem.total";
  b3 ← getInt64 m "mem.sys";
  b4 ← getInt64 m "mem.lookups";
  b5 ← getInt64 m "mem.malloc";
  b6 ← getInt64 m "mem.frees";
  h1 ← getInt64 m "mem.heap.alloc";
  h2 ← getInt64 m "mem.heap.sys";
  h3 ← getInt64 m "mem.heap.idle";
  h4 ← getInt64 m "mem.heap.inuse";
  h5 ← getInt64 m "mem.heap.released";
  h6 ← getInt64 m "mem.heap.objects";
  s1 ← getInt64 m "mem.stack.inuse";
  s2 ← getInt64 m "mem.stack.sys";
  s3 ← getInt64 m "mem.stack.mspan_inuse";
  s4 ← getInt64 m "mem.stack.mspan_sys";
  s5 ← getInt64 m "mem.stack.mcache_inuse";
  s6 ← getInt64 m "mem.stack.mcache_sys";
  s7 ← getInt64 m "mem.othersys";
  g1 ← getInt64 m "mem.gc.sys";
  g2 ← getInt64 m "mem.gc.next";
  g3 ← getInt64 m "mem.gc.last";
  g4 ← getInt64 m "mem.gc.pause_total";
  g5 ← getInt64 m "mem.gc.pause";
  g6 ← getInt64 m "mem.gc.count";
  g7 ← getFloat64 m "mem.gc.cpu_fraction";
  Some
    {| NumGoroutine := a1; NumCgoCall := a2;
       Alloc := b1; TotalAlloc := b2; Sys := b3; Lookups := b4;
       Mallocs := b5; Frees := b6;
       HeapAlloc := h1; HeapSys := h2; HeapIdle := h3; HeapInuse := h4;
       HeapReleased := h5; HeapObjects := h6;
       StackInuse := s1; StackSys := s2; MSpanInuse := s3; MSpanSys := s4;
       MCacheInuse := s5; MCacheSys := s6; OtherSys := s7;
       GCSys := g1; NextGC := g2; LastGC := g3; PauseTotalNs := g4;
       PauseNs := g5; NumGC := g6; GCCPUFraction := g7 |}.

(** ** Concrete inputs *)

(** A memory-statistics record after 300 GC cycles whose last pause, in
    slot 43, took 900 ns; [Frees] is a [uint64] above [2^63]. *)
Definition mem300 : runtime.MemStats :=
  {| runtime.Alloc := 4096; runtime.TotalAlloc := 8192;
     runtime.Sys := 65536; runtime.Lookups := 3; runtime.Mallocs := 120;
     runtime.Frees := 2 ^ 63 + 5;
     runtime.HeapAlloc := 4096; runtime.HeapSys := 32768;
     runtime.HeapIdle := 1024; runtime.HeapInuse := 2048;
     runtime.HeapReleased := 512; runtime.HeapObjects := 60;
     runtime.StackInuse := 256; runtime.StackSys := 256;
     runtime.MSpanInuse := 64; runtime.MSpanSys := 128;
     runtime.MCacheInuse := 32; runtime.MCacheSys := 64;
     runtime.OtherSys := 16;
     runtime.GCSys := 77; runtime.NextGC := 16384;
     runtime.LastGC := 1700000000000000000;
     runtime.PauseTotalNs := 123456;
     runtime.PauseNs := repeat 100 43 ++ [900] ++ repeat 200 212;
     runtime.NumGC := 300;
     runtime.GCCPUFraction := 0.25%float |}.

Definition reading7 : runtime.Reading :=
  {| runtime.NumGoroutine := 7; runtime.NumCgoCall := 2;
     runtime.ReadMemStats := mem300 |}.

Definition reading9 : runtime.Reading :=
  {| runtime.NumGoroutine := 9; runtime.NumCgoCall := 4;
     runtime.ReadMemStats := runtime.recordPause 650 mem300 |}.

(** A collector with a stop channel and a logging consumer, as [New]
    followed by [c.Done = done] builds it. *)
Definition sampler0 : Collector (list Fields) :=
  set_Done (Some 1%nat) (New (Some (recording (fun _ => Fields_zero)))).

(** The continuous loop ran its first cycle on [sampler0] and was
    stopped. *)
Definition ran_once : state (list Fields) :=
  final (Run reading7 [Close 1%nat] (sampler0, [])).

(** The caller then switched the CPU category off. *)
Definition stale_state : state (list Fields) :=
  (set_EnableCPU false ran_once.1, ran_once.2).

(** ** Views used by the further properties *)

(** The 19 [uint64] counters [outputMemStats] copies, in the order of its
    assignments. *)
Definition memCounters (m : runtime.MemStats) : list Z :=
  [runtime.Alloc m; runtime.TotalAlloc m; runtime.Sys m;
   runtime.Lookups m; runtime.Mallocs m; runtime.Frees m;
   runtime.HeapAlloc m; runtime.HeapSys m; runtime.HeapIdle m;
   runtime.HeapInuse m; runtime.HeapReleased m; runtime.HeapObjects m;
   runtime.StackInuse m; runtime.StackSys m; runtime.MSpanInuse m;
   runtime.MSpanSys m; runtime.MCacheInuse m; runtime.MCacheSys m;
   runtime.OtherSys m].

(** The six integers [outputGCStats] copies, in the order of its
    assignments: five [uint64] and the [uint32] cycle count. *)
Definition gcCounters (m : runtime.MemStats) : list Z :=
  [runtime.GCSys m; runtime.NextGC m; runtime.LastGC m;
   runtime.PauseTotalNs m;
   PauseNs_at m (pauseIndex (runtime.NumGC m));
   runtime.NumGC m].

(** The 27 integer fields of a snapshot. *)
Definition int64_fields (f : Fields) : list Z :=
  cpuFields f ++ memFields f ++ (gcFields f).1.

(** Every integer field is a value of Go's [int64]. *)
Definition in_int64 (f : Fields) : Prop :=
  Forall (fun x => - 2 ^ 63 <= x < 2 ^ 63) (int64_fields f).

(** Everything of a collector but its snapshot. *)
Definition config {W} (c : Collector W)
  : Z * bool * bool * bool * option chan * option (FieldsFunc W) :=
  (PauseDur c, EnableCPU c, EnableMem c, EnableGC c, Done c, fieldsFunc c).

(** The zero value [Collector{}], as a caller can declare it without
    [New]: no interval, no category, nil channel, nil consumer. *)
Definition Collector_zero {W} : Collector W :=
  {| PauseDur := 0; EnableCPU := false; EnableMem := false;
     EnableGC := false; Done := None; fieldsFunc := None;
     fields := Fields_zero |}.

(** The ticker [Run] creates for a collector: [time.NewTicker(c.PauseDur)]
    when that does not panic. *)
Definition ticker_of {W} (c : Collector W) : time.Ticker :=
  {| time.period := PauseDur c |}.

(** The runtime readings of the deliveries of ticker [t] among some
    events, in order. *)
Definition ticks_of (t : time.Ticker) (events : list event)
  : list runtime.Reading :=
  omap (fun e =>
          match e with
          | Tick t' rt => if decide (t' = t) then Some rt else None
          | Close _ => None
          end)
    events.

(** The events ticker [t] causes in its first [elapsed] nanoseconds, when
    the runtime would report [runtimeAt at_] at time [at_]. *)
Definition tick_events (t : time.Ticker) (runtimeAt : Z -> runtime.Reading)
  (elapsed : Z) : list event :=
  map (fun at_ => Tick t (runtimeAt at_)) (time.firings t elapsed).

(** * Properties *)

(** ** Machine integers *)

Lemma int64_small (z : Z) : - 2 ^ 63 <= z < 2 ^ 63 -> int64 z = z.
Proof.
  intros Hz. unfold int64.
  rewrite Z.mod_small by lia. lia.
Qed.

Lemma int64_range (z : Z) : - 2 ^ 63 <= int64 z < 2 ^ 63.
Proof.
  unfold int64.
  pose proof (Z.mod_pos_bound (z + 2 ^ 63) (2 ^ 64)) as Hb. lia.
Qed.

Lemma int64_idem (z : Z) : int64 (int64 z) = int64 z.
Proof. apply int64_small, int64_range. Qed.

(** ** What a cycle keeps and what it writes *)

Section CycleFacts.

Context {W : Type}.
Implicit Types (c : Collector W) (w : W) (k : FieldsFunc W).
Implicit Types (rt : runtime.Reading) (s : state W).

(** Case analysis on the three enable flags of a collector. *)
Ltac by_flags c :=
  destruct c as [? [] [] [] ? ? ?]; simpl in *;
  try discriminate; try reflexivity.

Lemma collect_PauseDur rt c : PauseDur (collect rt c) = PauseDur c.
Proof. unfold collect. by_flags c. Qed.

Lemma collect_EnableCPU rt c : EnableCPU (collect rt c) = EnableCPU c.
Proof. unfold collect. by_flags c. Qed.

Lemma collect_EnableMem rt c : EnableMem (collect rt c) = EnableMem c.
Proof. unfold collect. by_flags c. Qed.

Lemma collect_EnableGC rt c : EnableGC (collect rt c) = EnableGC c.
Proof. unfold collect. by_flags c. Qed.

Lemma collect_Done rt c : Done (collect rt c) = Done c.
Proof. unfold collect. by_flags c. Qed.

Lemma collect_fieldsFunc rt c : fieldsFunc (collect rt c) = fieldsFunc c.
Proof. unfold collect. by_flags c. Qed.

(** The CPU fields after the writes of a cycle. *)
Lemma collect_cpuFields rt c :
  cpuFields (fields (collect rt c)) =
  if EnableCPU c
  then [int64 (runtime.NumGoroutine rt); int64 (runtime.NumCgoCall rt)]
  else cpuFields (fields c).
Proof.
  unfold collect. by_flags c; unfold cpuFields; simpl;
    by rewrite !int64_idem.
Qed.

(** The memory fields after the writes of a cycle. *)
Lemma collect_memFields rt c :
  memFields (fields (collect rt c)) =
  if EnableMem c
  then
    let m := runtime.ReadMemStats rt in
    map int64
      [runtime.Alloc m; runtime.TotalAlloc m; runtime.Sys m;
       runtime.Lookups m; runtime.Mallocs m; runtime.Frees m;
       runtime.HeapAlloc m; runtime.HeapSys m; runtime.HeapIdle m;
       runtime.HeapInuse m; runtime.HeapReleased m; runtime.HeapObjects m;
       runtime.StackInuse m; runtime.StackSys m; runtime.MSpanInuse m;
       runtime.MSpanSys m; runtime.MCacheInuse m; runtime.MCacheSys m;
       runtime.OtherSys m]
  else memFields (fields c).
Proof. unfold collect. by_flags c. Qed.

(** The GC fields after the writes of a cycle. *)
Lemma collect_gcFields rt c :
  gcFields (fields (collect rt c)) =
  if EnableMem c && EnableGC c
  then
    let m := runtime.ReadMemStats rt in
    ([int64 (runtime.GCSys m); int64 (runtime.NextGC m);
      int64 (runtime.LastGC m); int64 (runtime.PauseTotalNs m);
      int64 (PauseNs_at m (pauseIndex (runtime.NumGC m)));
      int64 (runtime.NumGC m)],
     runtime.GCCPUFraction m)
  else gcFields (fields c).
Proof. unfold collect. by_flags c. Qed.

(** With every flag off the writes are the identity on the collector. *)
Lemma collect_all_off rt c :
  EnableCPU c = false -> EnableMem c = false -> collect rt c = c.
Proof. unfold collect. intros H1 H2. by_flags c. Qed.

Lemma outputStats_Some k rt c w :
  fieldsFunc c = Some k ->
  outputStats rt (c, w) = Returns tt (cycle k rt (c, w)).
Proof.
  intros Hk. unfold outputStats, cycle. simpl.
  rewrite collect_fieldsFunc, Hk.
  by destruct (k (fields (collect rt c)) w).
Qed.

Lemma outputStats_None rt c w :
  fieldsFunc c = None ->
  outputStats rt (c, w) = Panics (collect rt c, w).
Proof.
  intros Hk. unfold outputStats. by rewrite collect_fieldsFunc, Hk.
Qed.

Lemma cycle_fieldsFunc k rt s :
  fieldsFunc (fst (cycle k rt s)) = fieldsFunc (fst s).
Proof. apply collect_fieldsFunc. Qed.

Lemma cycle_Done k rt s : Done (fst (cycle k rt s)) = Done (fst s).
Proof. apply collect_Done. Qed.

Lemma cycle_PauseDur k rt s :
  PauseDur (fst (cycle k rt s)) = PauseDur (fst s).
Proof. apply collect_PauseDur. Qed.

Lemma cycles_fieldsFunc k rts s :
  fieldsFunc (fst (cycles k rts s)) = fieldsFunc (fst s).
Proof.
  revert s. induction rts as [|rt rts IH]; intros s; [done|].
  simpl. by rewrite IH, cycle_fieldsFunc.
Qed.

Lemma cycles_Done k rts s : Done (fst (cycles k rts s)) = Done (fst s).
Proof.
  revert s. induction rts as [|rt rts IH]; intros s; [done|].
  simpl. by rewrite IH, cycle_Done.
Qed.

End CycleFacts.

(** ** The select loop *)

Section LoopFacts.

Context {W : Type}.
Implicit Types (c : Collector W) (w : W) (k : FieldsFunc W).
Implicit Types (rt : runtime.Reading) (s : state W) (events : list event).
Implicit Types (tick : time.Ticker).

(** The loop on a run of events followed by more events. *)
Lemma loop_app tick events1 events2 s :
  loop tick (events1 ++ events2) s =
  match loop tick events1 s with
  | Blocks s' => loop tick events2 s'
  | r => r
  end.
Proof.
  revert s. induction events1 as [|e events1 IH]; intros s; [reflexivity|].
  destruct e as [t rt|ch]; simpl.
  - case_decide; [|apply IH].
    destruct s as [c w]. unfold outputStats.
    destruct (fieldsFunc (collect rt c)) as [k|]; [|done].
    destruct (k (fields (collect rt c)) w) as [f' w']. apply IH.
  - case_decide; [done|apply IH].
Qed.

(** A run of deliveries of the loop's ticker is a run of cycles, and the
    loop is still waiting. *)
Lemma loop_ticks k tick rts s :
  fieldsFunc (fst s) = Some k ->
  loop tick (map (Tick tick) rts) s = Blocks (cycles k rts s).
Proof.
  revert s. induction rts as [|rt rts IH]; intros [c w] Hk; [done|].
  cbn [map loop cycles fold_left]. rewrite decide_True by done.
  rewrite (outputStats_Some k) by done.
  apply IH. by rewrite cycle_fieldsFunc.
Qed.

(** Deliveries of any other ticker leave the loop waiting where it was. *)
Lemma loop_foreign_ticks tick t rts s :
  t <> tick -> loop tick (map (Tick t) rts) s = Blocks s.
Proof.
  intros Hne. induction rts as [|rt rts IH]; [done|].
  cbn [map loop]. by rewrite decide_False.
Qed.

(** The loop returns only through the receive on [c.Done]. *)
Lemma loop_Returns tick events s s' :
  loop tick events s = Returns tt s' ->
  exists ch, Done (fst s) = Some ch /\ In (Close ch) events.
Proof.
  revert s. induction events as [|e events IH]; intros s Hr; [done|].
  destruct e as [t rt|ch]; simpl in Hr.
  - case_decide.
    + destruct s as [c w]. unfold outputStats in Hr at 1.
      destruct (fieldsFunc (collect rt c)) as [k|] eqn:Hk; [|done].
      destruct (k (fields (collect rt c)) w) as [f' w'].
      apply IH in Hr as (ch & Hd & Hin). simpl in Hd.
      rewrite collect_Done in Hd. exists ch. split; [done|by right].
    + apply IH in Hr as (ch & Hd & Hin). exists ch. split; [done|by right].
  - case_decide as Hd.
    + exists ch. split; [done|by left].
    + apply IH in Hr as (ch' & Hd' & Hin). exists ch'. split; [done|by right].
Qed.

(** While the loop waits, the consumer of the collector is the one it
    started with, and it is not nil once a cycle has returned. *)
Lemma loop_Blocks_fieldsFunc tick events s s' :
  loop tick events s = Blocks s' -> fieldsFunc (fst s') = fieldsFunc (fst s).
Proof.
  revert s. induction events as [|e events IH]; intros s Hr.
  - simpl in Hr. by inversion Hr.
  - destruct e as [t rt|ch]; simpl in Hr.
    + case_decide; [|by apply IH].
      destruct s as [c w]. unfold outputStats in Hr at 1.
      destruct (fieldsFunc (collect rt c)) as [k|] eqn:Hk; [|done].
      destruct (k (fields (collect rt c)) w) as [f' w'].
      apply IH in Hr. simpl in Hr. by rewrite collect_fieldsFunc in Hr.
    + case_decide; [done|by apply IH].
Qed.

End LoopFacts.

(** ** Construction *)

(** C7. For every consumer argument, [New] returns a sampler whose
    interval is 10 seconds and whose three category flags are true. The
    stored consumer is the argument, or the no-op function when the
    argument is nil, so it is never nil: a collection cycle on the new
    sampler calls it and returns, and with the no-op the world is left as
    it was. *)
Theorem New_defaults {W : Type} (consumer : option (FieldsFunc W)) :
  PauseDur (New consumer) = 10 * time.Second /\
  10 * time.Second = 10000000000 /\
  EnableCPU (New consumer) = true /\
  EnableMem (New consumer) = true /\
  EnableGC (New consumer) = true /\
  fieldsFunc (New consumer) = Some (default noop consumer) /\
  fieldsFunc (New (W:=W) None) = Some noop /\
  (forall f w, noop (W:=W) f w = (f, w)) /\
  (forall rt w,
     outputStats rt (New consumer, w) =
     Returns tt (cycle (default noop consumer) rt (New consumer, w))) /\
  (forall rt w,
     outputStats rt (New (W:=W) None, w) =
     Returns tt (collect rt (New None), w)).
Proof.
  split; [reflexivity|]. split; [reflexivity|].
  split; [reflexivity|]. split; [reflexivity|]. split; [reflexivity|].
  split; [by destruct consumer|]. split; [reflexivity|].
  split; [reflexivity|]. split.
  - intros rt w. apply outputStats_Some. by destruct consumer.
  - intros rt w. by rewrite (outputStats_Some noop).
Qed.

(** ** The collection cycle *)

(** Whether the consumer is nil or not, the collector a cycle ends with
    is the one the writes produced. *)
Lemma outputStats_final {W : Type} rt (c : Collector W) w :
  fst (final (outputStats rt (c, w))) = collect rt c.
Proof.
  unfold outputStats.
  destruct (fieldsFunc (collect rt c)) as [k|]; [|done].
  by destruct (k (fields (collect rt c)) w).
Qed.

(** C3. With all three category flags false, one collection cycle leaves
    every field of the snapshot as it was, whatever the snapshot held
    and whatever the runtime reports; the rest of the collector is
    unchanged too. *)
Theorem all_disabled_cycle_unchanged {W : Type} (c : Collector W) rt w :
  EnableCPU c = false -> EnableMem c = false -> EnableGC c = false ->
  fields (fst (final (outputStats rt (c, w)))) = fields c /\
  fst (final (outputStats rt (c, w))) = c.
Proof.
  intros Hcpu Hmem _. rewrite outputStats_final.
  by rewrite collect_all_off.
Qed.

Lemma all_disabled_cycle_unchanged_witness :
  let c := set_EnableGC false (set_EnableMem false stale_state.1) in
  (EnableCPU c = false /\ EnableMem c = false /\ EnableGC c = false) /\
  NumGoroutine (fields c) = 7 /\
  fields (fst (final (outputStats reading9 (c, [])))) = fields c /\
  fst (final (outputStats reading9 (c, []))) = c.
Proof.
  split; [by vm_compute|]. split; [by vm_compute|].
  by apply all_disabled_cycle_unchanged.
Defined.

(** C6. The GC fields are written in a cycle exactly when the memory flag
    and the GC flag are both true: then they hold what the memory
    statistics report, otherwise they hold what they held before. With
    the memory flag false the GC flag has no effect on the snapshot. *)
Theorem GC_written_iff_Mem_and_GC {W : Type} (c : Collector W) rt w :
  gcFields (fields (fst (final (outputStats rt (c, w))))) =
    (if EnableMem c && EnableGC c
     then
       let m := runtime.ReadMemStats rt in
       ([int64 (runtime.GCSys m); int64 (runtime.NextGC m);
         int64 (runtime.LastGC m); int64 (runtime.PauseTotalNs m);
         int64 (PauseNs_at m (pauseIndex (runtime.NumGC m)));
         int64 (runtime.NumGC m)],
        runtime.GCCPUFraction m)
     else gcFields (fields c)) /\
  (forall b,
     fields (fst (final
       (outputStats rt (set_EnableGC b (set_EnableMem false c), w)))) =
     fields (fst (final (outputStats rt (set_EnableMem false c, w))))) /\
  (forall b,
     gcFields (fields (fst (final
       (outputStats rt (set_EnableGC b (set_EnableMem false c), w))))) =
     gcFields (fields c)).
Proof.
  split; [|split].
  - rewrite outputStats_final. apply collect_gcFields.
  - intros b. rewrite !outputStats_final.
    unfold collect. destruct c as [? [] ? ? ? ? ?]; reflexivity.
  - intros b. rewrite outputStats_final, collect_gcFields. reflexivity.
Qed.

(** C10. A collection cycle calls the consumer exactly once, on the
    snapshot as the writes of this cycle left it; with every flag false
    that is the unchanged snapshot. The consumer works on a copy: the
    snapshot the collector holds afterwards is the written one, whatever
    the consumer did to its parameter. For the logging consumer the log
    grows by exactly one entry, the current snapshot. *)
Theorem consumer_called_once_by_value {W : Type}
  (k : FieldsFunc W) (c : Collector W) rt w :
  fieldsFunc c = Some k ->
  outputStats rt (c, w) =
    Returns tt (collect rt c, snd (k (fields (collect rt c)) w)) /\
  (EnableCPU c = false -> EnableMem c = false ->
   outputStats rt (c, w) = Returns tt (c, snd (k (fields c) w))) /\
  (forall mutate (c' : Collector (list Fields)) log,
     fieldsFunc c' = Some (recording mutate) ->
     outputStats rt (c', log) =
       Returns tt (collect rt c', log ++ [fields (collect rt c')]) /\
     fields (fst (final (outputStats rt (c', log)))) =
       fields (collect rt c')).
Proof.
  intros Hk. split; [|split].
  - by rewrite (outputStats_Some k).
  - intros Hcpu Hmem. rewrite (outputStats_Some k) by done.
    unfold cycle. simpl. by rewrite collect_all_off.
  - intros mutate c' log Hk'. split.
    + by rewrite (outputStats_Some (recording mutate)).
    + by rewrite outputStats_final.
Qed.

Lemma consumer_called_once_by_value_witness :
  let k := recording (fun _ => Fields_zero) in
  let c := set_EnableMem false stale_state.1 in
  fieldsFunc c = Some k /\
  (EnableCPU c = false /\ EnableMem c = false) /\
  length stale_state.2 = 1%nat /\
  outputStats reading9 (c, stale_state.2) =
    Returns tt (c, stale_state.2 ++ [fields c]) /\
  NumGoroutine (fields c) = 7.
Proof.
  intros k c. split; [reflexivity|]. split; [by vm_compute|].
  split; [reflexivity|]. split; [|reflexivity].
  destruct (consumer_called_once_by_value k c reading9 stale_state.2)
    as (_ & Hoff & _); [reflexivity|].
  apply Hoff; reflexivity.
Defined.

(** ** The one-off accessor *)

(** [OneOff] on a collector whose consumer is not nil: it returns the
    snapshot the cycle wrote and leaves the zero snapshot behind. *)
Lemma OneOff_Some {W : Type} (k : FieldsFunc W) (c : Collector W) rt w :
  fieldsFunc c = Some k ->
  OneOff rt (c, w) =
  Returns (fields (collect rt c))
    (set_fields Fields_zero (collect rt c),
     snd (k (fields (collect rt c)) w)).
Proof.
  intros Hk. unfold OneOff. by rewrite (outputStats_Some k).
Qed.

(** C1, as the spec states it, fails: after the continuous loop has run
    one cycle with the CPU category on, and the caller has then switched
    that category off, [OneOff] returns the goroutine and cgo-call counts
    of that earlier cycle (7 and 2), not zero. *)
Lemma OneOff_disabled_zero_counterexample :
  Run reading7 [Close 1%nat] (sampler0, []) = Returns tt ran_once /\
  cpuFields (fields ran_once.1) = [7; 2] /\
  stale_state = (set_EnableCPU false ran_once.1, ran_once.2) /\
  EnableCPU stale_state.1 = false /\
  cpuFields <$> returned (OneOff reading9 stale_state) = Some [7; 2] /\
  cpuFields Fields_zero = [0; 0].
Proof. by vm_compute. Qed.

(** C1, amended. Every call to [OneOff] on a sampler with a consumer
    returns, and the fields of every disabled category in the returned
    snapshot equal what the internal snapshot held on entry: their zero
    value when the internal snapshot was zero on entry (as it is after
    [New] and after every [OneOff]). After the call the internal snapshot
    is the zero snapshot. *)
Theorem OneOff_disabled_as_on_entry_then_zeroed {W : Type}
  (k : FieldsFunc W) (c : Collector W) rt w :
  fieldsFunc c = Some k ->
  let ret := fields (collect rt c) in
  let c' := set_fields Fields_zero (collect rt c) in
  OneOff rt (c, w) = Returns ret (c', snd (k ret w)) /\
  fields c' = Fields_zero /\
  (EnableCPU c = false -> cpuFields ret = cpuFields (fields c)) /\
  (EnableMem c = false -> memFields ret = memFields (fields c)) /\
  (EnableMem c && EnableGC c = false ->
   gcFields ret = gcFields (fields c)) /\
  (fields c = Fields_zero ->
   (EnableCPU c = false -> cpuFields ret = cpuFields Fields_zero) /\
   (EnableMem c = false -> memFields ret = memFields Fields_zero) /\
   (EnableMem c && EnableGC c = false ->
    gcFields ret = gcFields Fields_zero)).
Proof.
  intros Hk ret c'.
  assert (Hcpu : EnableCPU c = false -> cpuFields ret = cpuFields (fields c)).
  { intros Hoff. subst ret. by rewrite collect_cpuFields, Hoff. }
  assert (Hmem : EnableMem c = false -> memFields ret = memFields (fields c)).
  { intros Hoff. subst ret. by rewrite collect_memFields, Hoff. }
  assert (Hgc : EnableMem c && EnableGC c = false ->
                gcFields ret = gcFields (fields c)).
  { intros Hoff. subst ret. by rewrite collect_gcFields, Hoff. }
  split; [by apply OneOff_Some|]. split; [reflexivity|].
  split; [done|]. split; [done|]. split; [done|].
  intros Hzero. rewrite <- Hzero. done.
Qed.

Lemma OneOff_disabled_as_on_entry_then_zeroed_witness :
  let k := recording (fun f => f) in
  let c := set_EnableCPU false (New (Some k)) in
  fieldsFunc c = Some k /\
  fields c = Fields_zero /\
  EnableCPU c = false /\
  cpuFields <$> returned (OneOff reading9 (c, [])) = Some [0; 0] /\
  fields (fst (final (OneOff reading9 (c, [])))) = Fields_zero.
Proof.
  intros k c.
  destruct (OneOff_disabled_as_on_entry_then_zeroed k c reading9 [])
    as (Hret & Hz & _ & _ & _ & Hfresh); [reflexivity|].
  destruct Hfresh as (Hcpu & _); [reflexivity|].
  split; [reflexivity|]. split; [reflexivity|]. split; [reflexivity|].
  rewrite Hret. split; [|exact Hz].
  change (Some (cpuFields (fields (collect reading9 c))) = Some [0; 0]).
  apply (f_equal Some), Hcpu. reflexivity.
Defined.

(** ** The continuous loop *)

(** [Run] on a collector with a consumer and a positive interval: the
    first cycle, then the select loop. *)
Lemma Run_Some {W : Type} (k : FieldsFunc W) (c : Collector W) rt0 events w :
  fieldsFunc c = Some k -> 0 < PauseDur c ->
  Run rt0 events (c, w) = loop (ticker_of c) events (cycle k rt0 (c, w)).
Proof.
  intros Hk Hpos. unfold Run. rewrite (outputStats_Some k) by done.
  rewrite cycle_PauseDur. simpl. unfold time.NewTicker.
  destruct (Z.leb_spec (PauseDur c) 0) as [Hle|_]; [lia|done].
Qed.

(** When [Run] is waiting in its select, the first cycle has returned:
    the consumer is not nil and the interval was accepted. *)
Lemma Run_Blocks_inv {W : Type} (c c1 : Collector W) rt0 events w w1 :
  Run rt0 events (c, w) = Blocks (c1, w1) ->
  exists k, fieldsFunc c = Some k /\ fieldsFunc c1 = Some k /\
            0 < PauseDur c.
Proof.
  unfold Run, outputStats. intros Hrun.
  destruct (fieldsFunc (collect rt0 c)) as [k|] eqn:Hk; [|done].
  destruct (k (fields (collect rt0 c)) w) as [f' w'].
  simpl in Hrun. rewrite collect_PauseDur in Hrun.
  unfold time.NewTicker in Hrun.
  destruct (Z.leb_spec (PauseDur c) 0) as [Hle|Hpos]; [done|].
  apply loop_Blocks_fieldsFunc in Hrun. simpl in Hrun.
  rewrite Hk in Hrun. rewrite collect_fieldsFunc in Hk.
  by exists k.
Qed.

(** [Run] returns only through the receive on its stop channel, whatever
    the collector. *)
Lemma Run_Returns_inv {W : Type} (c : Collector W) rt0 events w s' :
  Run rt0 events (c, w) = Returns tt s' ->
  exists ch, Done c = Some ch /\ In (Close ch) events.
Proof.
  unfold Run, outputStats. intros Hrun.
  destruct (fieldsFunc (collect rt0 c)) as [k|]; [|done].
  destruct (k (fields (collect rt0 c)) w) as [f' w'].
  destruct (time.NewTicker _); [|done].
  apply loop_Returns in Hrun as (ch & Hd & Hin). simpl in Hd.
  rewrite collect_Done in Hd. by exists ch.
Qed.

(** C2. Whenever [Run] is waiting in its select and its ticker fires, the
    cycle that follows leaves [Run] waiting again with the snapshot the
    cycle wrote: nothing resets it, and the fields of every disabled
    category are those from before the cycle. Every [OneOff] call on a
    sampler with a consumer returns and leaves the zero snapshot. *)
Theorem reset_after_OneOff_not_after_tick {W : Type}
  (c c1 co : Collector W) (ko : FieldsFunc W) rt0 rt events w w1 wo :
  Run rt0 events (c, w) = Blocks (c1, w1) ->
  fieldsFunc co = Some ko ->
  (exists k,
     fieldsFunc c1 = Some k /\
     Run rt0 (events ++ [Tick (ticker_of c) rt]) (c, w) =
     Blocks (cycle k rt (c1, w1))) /\
  (forall c2 w2,
     Run rt0 (events ++ [Tick (ticker_of c) rt]) (c, w) = Blocks (c2, w2) ->
     fields c2 = fields (collect rt c1) /\
     (EnableCPU c1 = false ->
      cpuFields (fields c2) = cpuFields (fields c1)) /\
     (EnableMem c1 = false ->
      memFields (fields c2) = memFields (fields c1)) /\
     (EnableMem c1 && EnableGC c1 = false ->
      gcFields (fields c2) = gcFields (fields c1))) /\
  OneOff rt (co, wo) =
    Returns (fields (collect rt co))
      (set_fields Fields_zero (collect rt co),
       snd (ko (fields (collect rt co)) wo)) /\
  fields (fst (final (OneOff rt (co, wo)))) = Fields_zero.
Proof.
  intros Hrun Hko.
  destruct (Run_Blocks_inv _ _ _ _ _ _ Hrun) as (k & Hk & Hk1 & Hpos).
  assert (Hstep : Run rt0 (events ++ [Tick (ticker_of c) rt]) (c, w) =
                  Blocks (cycle k rt (c1, w1))).
  { rewrite (Run_Some k) in Hrun |- * by done.
    rewrite loop_app, Hrun.
    cbn [loop]. rewrite decide_True by done.
    by rewrite (outputStats_Some k). }
  split; [by exists k|]. split.
  - intros c2 w2 Hrun2. rewrite Hstep in Hrun2.
    inversion Hrun2; subst c2 w2; clear Hrun2.
    split; [reflexivity|]. split; [|split]; intros Hoff.
    + by rewrite collect_cpuFields, Hoff.
    + by rewrite collect_memFields, Hoff.
    + by rewrite collect_gcFields, Hoff.
  - rewrite (OneOff_Some ko) by done. done.
Qed.

Lemma reset_after_OneOff_not_after_tick_witness :
  let c := set_EnableCPU false sampler0 in
  let c1 := fst (cycle (recording (fun _ => Fields_zero)) reading7 (c, [])) in
  let w1 := [fields c1] in
  Run reading7 [] (c, []) = Blocks (c1, w1) /\
  fieldsFunc c = Some (recording (fun _ => Fields_zero)) /\
  (forall c2 w2,
     Run reading7 ([] ++ [Tick (ticker_of c) reading9]) (c, []) =
     Blocks (c2, w2) ->
     fields c2 = fields (collect reading9 c1)) /\
  fields (collect reading9 c1) <> Fields_zero /\
  fields (fst (final (OneOff reading9 (c, [])))) = Fields_zero.
Proof.
  intros c c1 w1.
  assert (Hrun : Run reading7 [] (c, []) = Blocks (c1, w1)) by reflexivity.
  assert (Hk : fieldsFunc c = Some (recording (fun _ => Fields_zero)))
    by reflexivity.
  destruct (reset_after_OneOff_not_after_tick c c1 c
              (recording (fun _ => Fields_zero))
              reading7 reading9 [] [] w1 [] Hrun Hk)
    as (_ & Htick & _ & Hzero).
  split; [exact Hrun|]. split; [exact Hk|].
  split; [intros c2 w2 H2; by apply (Htick c2 w2)|].
  split; [|exact Hzero].
  intros Heq. apply (f_equal Alloc) in Heq. vm_compute in Heq. discriminate.
Defined.

(** The deliveries of a ticker with a positive period: the [i]-th one
    (from 0) comes [(i + 1)] periods after the ticker was created, and
    all of them lie in the elapsed time. *)
Lemma firings_lookup (t : time.Ticker) (elapsed : Z) (i : nat) (at_ : Z) :
  0 < time.period t ->
  time.firings t elapsed !! i = Some at_ ->
  at_ = (Z.of_nat i + 1) * time.period t /\ 0 < at_ <= elapsed.
Proof.
  intros Hpos Hlook. unfold time.firings in Hlook.
  rewrite list_lookup_fmap in Hlook.
  destruct (seq 1 (Z.to_nat (elapsed / time.period t)) !! i)
    as [j|] eqn:Hj; [|done].
  apply lookup_seq in Hj as [-> Hlt]. simpl in Hlook.
  injection Hlook as <-.
  assert (Hdiv : Z.of_nat i + 1 <= elapsed / time.period t) by lia.
  pose proof (Z.mul_div_le elapsed (time.period t) Hpos) as Hle.
  split; [lia|]. split; nia.
Qed.

Lemma firings_length (t : time.Ticker) (elapsed : Z) :
  length (time.firings t elapsed) = Z.to_nat (elapsed / time.period t).
Proof. unfold time.firings. by rewrite length_map, length_seq. Qed.

(** C5. On a sampler with a consumer and a positive interval, [Run]
    performs one cycle before it waits for anything and then one cycle
    for every delivery of the ticker it created from its interval:
    deliveries of a ticker with any other period cause no cycle. That
    ticker delivers once per elapsed interval, so when the stop channel
    is closed [elapsed] nanoseconds after the start, [Run] returns having
    run [1 + elapsed / interval] cycles, the [i]-th later one at
    [i] intervals after the start. It returns in no other way: a
    returning [Run] has a stop channel and that channel was closed; with
    a nil stop channel [Run] never returns, however long the events go
    on. Each cycle calls the consumer once: the log of the logging
    consumer grows by one entry per cycle. *)
Theorem Run_cycles_until_stopped {W : Type}
  (k : FieldsFunc W) (c : Collector W) rt0 w :
  fieldsFunc c = Some k -> 0 < PauseDur c ->
  time.NewTicker (PauseDur c) = Some (ticker_of c) /\
  time.period (ticker_of c) = PauseDur c /\
  Run rt0 [] (c, w) = Blocks (cycle k rt0 (c, w)) /\
  (forall rts,
     Run rt0 (map (Tick (ticker_of c)) rts) (c, w) =
     Blocks (cycles k (rt0 :: rts) (c, w))) /\
  (forall rts ch rest,
     Done c = Some ch ->
     Run rt0 (map (Tick (ticker_of c)) rts ++ Close ch :: rest) (c, w) =
     Returns tt (cycles k (rt0 :: rts) (c, w))) /\
  (forall t rts,
     t <> ticker_of c ->
     Run rt0 (map (Tick t) rts) (c, w) = Blocks (cycle k rt0 (c, w))) /\
  (forall (runtimeAt : Z -> runtime.Reading) elapsed ch rest,
     Done c = Some ch ->
     Run rt0
       (tick_events (ticker_of c) runtimeAt elapsed ++ Close ch :: rest)
       (c, w) =
     Returns tt
       (cycles k (rt0 :: map runtimeAt (time.firings (ticker_of c) elapsed))
          (c, w))) /\
  (forall elapsed,
     length (time.firings (ticker_of c) elapsed) =
     Z.to_nat (elapsed / PauseDur c)) /\
  (forall elapsed i at_,
     time.firings (ticker_of c) elapsed !! i = Some at_ ->
     at_ = (Z.of_nat i + 1) * PauseDur c /\ 0 < at_ <= elapsed) /\
  (forall (c' : Collector W) rt events w' s',
     Run rt events (c', w') = Returns tt s' ->
     exists ch, Done c' = Some ch /\ In (Close ch) events) /\
  (forall (c' : Collector W) rt events w',
     Done c' = None -> returned (Run rt events (c', w')) = None) /\
  (forall mutate (c' : Collector (list Fields)) rts log,
     fieldsFunc c' = Some (recording mutate) ->
     length (snd (cycles (recording mutate) rts (c', log))) =
     (length log + length rts)%nat).
Proof.
  intros Hk Hpos.
  assert (Hstop : forall rts ch rest,
            Done c = Some ch ->
            Run rt0 (map (Tick (ticker_of c)) rts ++ Close ch :: rest) (c, w) =
            Returns tt (cycles k (rt0 :: rts) (c, w))).
  { intros rts ch rest Hd. rewrite (Run_Some k) by done.
    rewrite loop_app, (loop_ticks k) by (by rewrite cycle_fieldsFunc).
    cbn [loop]. rewrite decide_True; [done|].
    change (Done (fst (cycles k (rt0 :: rts) (c, w))) = Some ch).
    by rewrite cycles_Done. }
  split.
  { unfold time.NewTicker.
    destruct (Z.leb_spec (PauseDur c) 0) as [Hle|_]; [lia|done]. }
  split; [reflexivity|].
  split; [by rewrite (Run_Some k)|].
  split; [|split; [exact Hstop|split; [|split; [|split; [|split]]]]].
  - intros rts. rewrite (Run_Some k) by done.
    by rewrite (loop_ticks k) by (by rewrite cycle_fieldsFunc).
  - intros t rts Hne. rewrite (Run_Some k) by done.
    by apply loop_foreign_ticks.
  - intros runtimeAt elapsed ch rest Hd. unfold tick_events.
    rewrite <- (map_map runtimeAt (Tick (ticker_of c))).
    by apply Hstop.
  - intros elapsed. apply firings_length.
  - intros elapsed i at_. by apply firings_lookup.
  - split; [|split].
    + intros c' rt events w' s'. apply Run_Returns_inv.
    + intros c' rt events w' Hnil.
      destruct (Run rt events (c', w')) as [[] s'|s'|s'] eqn:Hrun;
        [|done|done].
      apply Run_Returns_inv in Hrun as (ch & Hd & _). congruence.
    + intros mutate c' rts. revert c'.
      induction rts as [|rt rts IH]; intros c' log Hk'; simpl; [lia|].
      change (length (snd (cycles (recording mutate) rts
                (cycle (recording mutate) rt (c', log)))) =
              (length log + S (length rts))%nat).
      unfold cycle at 1. cbn [fst snd recording].
      rewrite IH by (by rewrite collect_fieldsFunc).
      rewrite length_app. simpl. lia.
Qed.

Lemma Run_cycles_until_stopped_witness :
  let k := recording (fun _ => Fields_zero) in
  let runtimeAt := fun at_ =>
    if at_ <? 15 * time.Second then reading9 else reading7 in
  (fieldsFunc sampler0 = Some k /\ 0 < PauseDur sampler0) /\
  PauseDur sampler0 = 10 * time.Second /\
  time.firings (ticker_of sampler0) (25 * time.Second) =
    [10 * time.Second; 20 * time.Second] /\
  Run reading7
    (tick_events (ticker_of sampler0) runtimeAt (25 * time.Second) ++
     [Close 1%nat; Tick (ticker_of sampler0) reading9])
    (sampler0, []) =
  Returns tt (cycles k [reading7; reading9; reading7] (sampler0, [])) /\
  length (snd (cycles k [reading7; reading9; reading7] (sampler0, []))) =
  3%nat.
Proof.
  intros k runtimeAt. split; [by vm_compute|].
  split; [reflexivity|]. split; [reflexivity|].
  destruct (Run_cycles_until_stopped k sampler0 reading7 [])
    as (_ & _ & _ & _ & _ & _ & Hstop & _ & _ & _ & _ & Hlog);
    [reflexivity|reflexivity|].
  split.
  - by apply (Hstop runtimeAt (25 * time.Second) 1%nat
                [Tick (ticker_of sampler0) reading9]).
  - by apply (Hlog _ sampler0 [reading7; reading9; reading7] []).
Defined.

(** ** The interval *)

(** C8, as the spec states it, fails: nothing checks the interval when it
    is configured. Assigning zero to [PauseDur] stores zero, neither
    rejected nor replaced by the default, and [Run] then performs its
    first cycle (the consumer is called once) before the ticker refuses
    the interval. *)
Lemma interval_guard_counterexample :
  let c := set_PauseDur 0 sampler0 in
  PauseDur c = 0 /\
  PauseDur sampler0 = 10 * time.Second /\
  Run reading7 [Tick (ticker_of c) reading9] (c, []) =
    Panics (cycle (recording (fun _ => Fields_zero)) reading7 (c, [])) /\
  length (snd (final
    (Run reading7 [Tick (ticker_of c) reading9] (c, [])))) = 1%nat.
Proof. by vm_compute. Qed.

(** C8, amended. The interval is an unguarded field: [New] sets it to 10
    seconds and an assignment stores any value unchanged, zero and
    negative ones too. [Run] on a sampler (with a consumer) whose
    interval is zero or negative performs its first cycle and then
    panics when it creates the ticker, whatever events follow: the loop
    never ticks with a non-positive interval. *)
Theorem nonpositive_interval_panics_after_first_cycle {W : Type}
  (k : FieldsFunc W) (c : Collector W) rt0 events w :
  fieldsFunc c = Some k -> PauseDur c <= 0 ->
  Run rt0 events (c, w) = Panics (cycle k rt0 (c, w)) /\
  (forall d c', PauseDur (set_PauseDur (W:=W) d c') = d) /\
  (forall consumer : option (FieldsFunc W),
     PauseDur (New consumer) = 10 * time.Second /\
     0 < PauseDur (New consumer)).
Proof.
  intros Hk Hle. split; [|split].
  - unfold Run. rewrite (outputStats_Some k) by done.
    rewrite cycle_PauseDur. simpl. unfold time.NewTicker.
    destruct (Z.leb_spec (PauseDur c) 0) as [_|Hpos]; [done|lia].
  - reflexivity.
  - intros consumer. split; reflexivity.
Qed.

Lemma nonpositive_interval_panics_after_first_cycle_witness :
  let k := recording (fun _ => Fields_zero) in
  let c := set_PauseDur (-5) sampler0 in
  (fieldsFunc c = Some k /\ PauseDur c <= 0) /\
  Run reading7 [Tick (ticker_of c) reading9; Close 1%nat] (c, []) =
    Panics (cycle k reading7 (c, [])).
Proof.
  intros k c. split; [by vm_compute|].
  apply (nonpositive_interval_panics_after_first_cycle k c); [reflexivity|].
  by vm_compute.
Defined.

(** ** The recent-pause index *)

(** The wrap of the [uint32] sum does not show: 256 divides [2^32]. *)
Lemma pauseIndex_mod (n : Z) : pauseIndex n = (n + 255) mod 256.
Proof.
  unfold pauseIndex, uint32. apply Z.mod_mod_divide.
  exists (2 ^ 24). reflexivity.
Qed.

Lemma pauseIndex_range (n : Z) : 0 <= pauseIndex n < 256.
Proof. rewrite pauseIndex_mod. apply Z.mod_pos_bound. lia. Qed.

(** After the runtime has recorded a pause, the index computed from the
    new counter is the slot the runtime wrote, also when the counter
    wraps from [2^32 - 1] to 0. *)
Lemma pauseIndex_recordPause (p : Z) (m : runtime.MemStats) :
  pauseIndex (runtime.NumGC (runtime.recordPause p m)) =
  runtime.NumGC m mod 256.
Proof.
  rewrite pauseIndex_mod. simpl. unfold uint32.
  rewrite Zplus_mod, Z.mod_mod_divide by (exists (2 ^ 24); reflexivity).
  rewrite <- Zplus_mod.
  replace (runtime.NumGC m + 1 + 255) with (runtime.NumGC m + 1 * 256) by lia.
  apply Z_mod_plus_full.
Qed.

Lemma recordPauses_length (pauses : list Z) (m : runtime.MemStats) :
  length (runtime.PauseNs (runtime.recordPauses pauses m)) =
  length (runtime.PauseNs m).
Proof.
  revert m. induction pauses as [|p pauses IH]; intros m; [done|].
  simpl. rewrite IH. simpl. apply length_insert.
Qed.

(** C4. The index [(count + 255) mod 256] is 255 for count 0 and 43 for
    count 300, and it always lies inside the 256 slots. Whenever the
    runtime has recorded a GC pause into its 256-slot circular buffer
    (slot [count mod 256], then the count goes up by one), the index
    computed from the new count is the slot just written: the entry read
    there, and the [PauseNs] field [outputGCStats] stores, is that most
    recent pause. *)
Theorem pauseIndex_is_latest_slot {W : Type} (c : Collector W)
  (m : runtime.MemStats) (pauses : list Z) (pause : Z) :
  length (runtime.PauseNs m) = 256%nat ->
  pauseIndex 0 = 255 /\
  pauseIndex 300 = 43 /\
  (forall n, pauseIndex n = (n + 255) mod 256 /\ 0 <= pauseIndex n < 256) /\
  let before := runtime.recordPauses pauses m in
  let m' := runtime.recordPause pause before in
  runtime.recordPauses (pauses ++ [pause]) m = m' /\
  length (runtime.PauseNs m') = 256%nat /\
  pauseIndex (runtime.NumGC m') = runtime.NumGC before mod 256 /\
  PauseNs_at m' (pauseIndex (runtime.NumGC m')) = pause /\
  PauseNs (fields (outputGCStats m' c)) = int64 pause.
Proof.
  intros Hlen. split; [reflexivity|]. split; [reflexivity|].
  split; [intros n; split; [apply pauseIndex_mod|apply pauseIndex_range]|].
  intros before m'.
  assert (Hlen' : length (runtime.PauseNs before) = 256%nat).
  { subst before. by rewrite recordPauses_length. }
  assert (Hread : PauseNs_at m' (pauseIndex (runtime.NumGC m')) = pause).
  { subst m'. rewrite pauseIndex_recordPause.
    unfold PauseNs_at. simpl. apply nth_lookup_Some.
    apply list_lookup_insert_eq. rewrite Hlen'.
    pose proof (Z.mod_pos_bound (runtime.NumGC before) 256). lia. }
  split; [|split; [|split; [|split]]].
  - subst m' before. unfold runtime.recordPauses.
    by rewrite fold_left_app.
  - subst m'. simpl. by rewrite length_insert.
  - apply pauseIndex_recordPause.
  - exact Hread.
  - unfold outputGCStats. cbn [set_fields fields PauseNs].
    by rewrite Hread.
Qed.

Lemma pauseIndex_is_latest_slot_witness :
  length (runtime.PauseNs mem300) = 256%nat /\
  PauseNs_at mem300 (pauseIndex (runtime.NumGC mem300)) = 900 /\
  let m' := runtime.recordPauses ([650; 700] ++ [800]) mem300 in
  runtime.NumGC m' = 303 /\
  pauseIndex (runtime.NumGC m') = 46 /\
  PauseNs_at m' (pauseIndex (runtime.NumGC m')) = 800 /\
  PauseNs (fields (outputGCStats m' sampler0)) = 800.
Proof.
  split; [reflexivity|]. split; [reflexivity|].
  destruct (pauseIndex_is_latest_slot sampler0 mem300 [650; 700] 800)
    as (_ & _ & _ & Happ & _ & _ & Hread & Hout); [reflexivity|].
  rewrite Happ. split; [reflexivity|]. split; [reflexivity|].
  split; [exact Hread|exact Hout].
Defined.

(** ** The flat key-value form *)

(** C9. The map built by [ToMap] has exactly one entry per field of the
    snapshot (28 of them), keyed by the name the field carries in the
    struct declaration and holding the field's value at its own type:
    the integer counters as integers, the GC CPU fraction as the very
    same float. Reading the entries back by name gives the snapshot
    again, field for field. *)
Theorem ToMap_round_trip (f : Fields) :
  fromMap (ToMap f) = Some f /\
  ToMap f = list_to_map (map (fun tg => (tg.1, tg.2 f)) Fields_tags) /\
  NoDup (map fst Fields_tags) /\
  length Fields_tags = 28%nat /\
  size (ToMap f) = 28%nat /\
  Forall (fun tg => ToMap f !! tg.1 = Some (tg.2 f)) Fields_tags /\
  (forall key, is_Some (ToMap f !! key) <-> In key (map fst Fields_tags)) /\
  ToMap f !! "mem.gc.cpu_fraction" = Some (VFloat64 (GCCPUFraction f)).
Proof.
  assert (Hnodup : NoDup (map fst Fields_tags)).
  { apply (bool_decide_unpack _). by vm_compute. }
  assert (Htags :
    ToMap f = list_to_map (map (fun tg => (tg.1, tg.2 f)) Fields_tags))
    by reflexivity.
  assert (Hfst : (map (fun tg => (tg.1, tg.2 f)) Fields_tags).*1 =
                 map fst Fields_tags) by reflexivity.
  split; [by destruct f; vm_compute|]. split; [exact Htags|].
  split; [exact Hnodup|]. split; [reflexivity|].
  split; [by destruct f; vm_compute|].
  split; [destruct f; repeat constructor|].
  split; [|by destruct f; vm_compute].
  intros key. rewrite Htags.
  rewrite <- elem_of_dom, dom_list_to_map_L, elem_of_list_to_set, Hfst.
  apply list_elem_of_In.
Qed.

(** * Further properties of the code *)

(** ** Narrowing to [int64] *)

(** [int64] of a [uint64]: the identity below [2^63], a negative number
    from there on. *)
Lemma int64_of_uint64 (v : Z) :
  0 <= v < 2 ^ 64 -> int64 v = if v <? 2 ^ 63 then v else v - 2 ^ 64.
Proof.
  intros Hv. destruct (Z.ltb_spec v (2 ^ 63)) as [Hlt|Hge].
  - apply int64_small. lia.
  - unfold int64.
    replace (v + 2 ^ 63) with (v - 2 ^ 63 + 1 * 2 ^ 64) by lia.
    rewrite Z_mod_plus_full, Z.mod_small by lia. lia.
Qed.

Lemma Forall2_map_int64 (vs : list Z) :
  Forall (fun v => 0 <= v < 2 ^ 64) vs ->
  Forall2 (fun v x => x = if v <? 2 ^ 63 then v else v - 2 ^ 64)
    vs (map int64 vs).
Proof.
  induction 1 as [|v vs Hv _ IH]; simpl; constructor; [|done].
  by apply int64_of_uint64.
Qed.

Lemma map_int64_small (vs : list Z) :
  Forall (fun v => 0 <= v < 2 ^ 63) vs -> map int64 vs = vs.
Proof.
  induction 1 as [|v vs Hv _ IH]; simpl; [done|].
  rewrite IH, int64_small by lia. done.
Qed.

(** X1. [outputMemStats] and [outputGCStats] store every unsigned counter
    of the memory statistics through [int64(...)]: a counter below
    [2^63] is stored exactly, a counter from [2^63] on is stored as the
    negative number [v - 2^64]. When all counters are below [2^63] the
    memory and GC integers of the snapshot are the runtime's own. *)
Theorem unsigned_counters_narrowed {W : Type} (c : Collector W)
  (m : runtime.MemStats) :
  Forall (fun v => 0 <= v < 2 ^ 64) (memCounters m ++ gcCounters m) ->
  Forall2 (fun v x => x = if v <? 2 ^ 63 then v else v - 2 ^ 64)
    (memCounters m) (memFields (fields (outputMemStats m c))) /\
  Forall2 (fun v x => x = if v <? 2 ^ 63 then v else v - 2 ^ 64)
    (gcCounters m) (gcFields (fields (outputGCStats m c))).1 /\
  (Forall (fun v => 0 <= v < 2 ^ 63) (memCounters m ++ gcCounters m) ->
   memFields (fields (outputMemStats m c)) = memCounters m /\
   (gcFields (fields (outputGCStats m c))).1 = gcCounters m).
Proof.
  intros Hall. apply Forall_app in Hall as [Hmem Hgc].
  change (memFields (fields (outputMemStats m c)))
    with (map int64 (memCounters m)).
  change ((gcFields (fields (outputGCStats m c))).1)
    with (map int64 (gcCounters m)).
  split; [by apply Forall2_map_int64|].
  split; [by apply Forall2_map_int64|].
  intros Hsmall. apply Forall_app in Hsmall as [Hm Hg].
  by rewrite !map_int64_small.
Qed.

Lemma unsigned_counters_narrowed_witness :
  Forall (fun v => 0 <= v < 2 ^ 64) (memCounters mem300 ++ gcCounters mem300) /\
  runtime.Frees mem300 = 2 ^ 63 + 5 /\
  Frees (fields (outputMemStats mem300 sampler0)) = 5 - 2 ^ 63 /\
  Alloc (fields (outputMemStats mem300 sampler0)) = 4096 /\
  Forall2 (fun v x => x = if v <? 2 ^ 63 then v else v - 2 ^ 64)
    (memCounters mem300)
    (memFields (fields (outputMemStats mem300 sampler0))).
Proof.
  assert (Hall : Forall (fun v => 0 <= v < 2 ^ 64)
                   (memCounters mem300 ++ gcCounters mem300)).
  { apply (bool_decide_unpack _). by vm_compute. }
  split; [exact Hall|]. split; [reflexivity|].
  split; [reflexivity|]. split; [reflexivity|].
  exact (proj1 (unsigned_counters_narrowed sampler0 mem300 Hall)).
Defined.

(** ** What every call preserves *)

Section Invariants.

Context {W : Type}.
Implicit Types (c : Collector W) (w : W) (s : state W).

(** A property of the collector that the writes of a cycle and the reset
    of [OneOff] keep. *)
Variable P : Collector W -> Prop.
Hypothesis P_collect : forall rt c, P c -> P (collect rt c).
Hypothesis P_reset : forall c, P c -> P (set_fields Fields_zero c).

Lemma outputStats_keeps rt s :
  P (fst s) -> P (fst (final (outputStats rt s))).
Proof.
  destruct s as [c w]. intros Hc. rewrite outputStats_final. by apply P_collect.
Qed.

Lemma OneOff_keeps rt s : P (fst s) -> P (fst (final (OneOff rt s))).
Proof.
  destruct s as [c w]. intros Hc. unfold OneOff, outputStats.
  destruct (fieldsFunc (collect rt c)) as [k|]; [|by apply P_collect].
  destruct (k (fields (collect rt c)) w) as [f' w'].
  by apply P_reset, P_collect.
Qed.

Lemma loop_keeps tick events s :
  P (fst s) -> P (fst (final (loop tick events s))).
Proof.
  revert s. induction events as [|e events IH]; intros s Hs; [done|].
  destruct e as [t rt|ch]; simpl.
  - case_decide; [|by apply IH].
    destruct s as [c w]. unfold outputStats.
    destruct (fieldsFunc (collect rt c)) as [k|]; [|by apply P_collect].
    destruct (k (fields (collect rt c)) w) as [f' w'].
    apply IH. by apply P_collect.
  - case_decide; [done|by apply IH].
Qed.

Lemma Run_keeps rt0 events s :
  P (fst s) -> P (fst (final (Run rt0 events s))).
Proof.
  destruct s as [c w]. intros Hc. unfold Run, outputStats.
  destruct (fieldsFunc (collect rt0 c)) as [k|]; [|by apply P_collect].
  destruct (k (fields (collect rt0 c)) w) as [f' w'].
  destruct (time.NewTicker _); [|by apply P_collect].
  apply loop_keeps. by apply P_collect.
Qed.

End Invariants.

Lemma collect_in_int64 {W : Type} rt (c : Collector W) :
  in_int64 (fields c) -> in_int64 (fields (collect rt c)).
Proof.
  unfold in_int64, int64_fields. rewrite !Forall_app.
  intros (Hcpu & Hmem & Hgc).
  rewrite collect_cpuFields, collect_memFields, collect_gcFields.
  split; [|split].
  - destruct (EnableCPU c); [|done].
    repeat (apply Forall_cons_2; [apply int64_range|]). constructor.
  - destruct (EnableMem c); [|done].
    apply Forall_forall. intros x Hin. apply list_elem_of_In in Hin.
    apply in_map_iff in Hin as (v & <- & _). apply int64_range.
  - destruct (EnableMem c && EnableGC c); [|done].
    repeat (apply Forall_cons_2; [apply int64_range|]). constructor.
Qed.

Lemma Fields_zero_in_int64 : in_int64 Fields_zero.
Proof. apply (bool_decide_unpack _). by vm_compute. Qed.

(** X2. The integer fields of the snapshot never leave the [int64] range
    [-2^63, 2^63): when they are in range before a call of [outputStats],
    [OneOff] or [Run] (as they are in the zero snapshot [New] installs),
    they are in range in the collector the call ends with, whatever the
    runtime reports and however the call ends, and so is the snapshot
    [OneOff] returns. *)
Theorem snapshot_stays_in_int64 {W : Type} (c : Collector W)
  rt0 rt events w :
  in_int64 (fields c) ->
  in_int64 (fields (fst (final (outputStats rt (c, w))))) /\
  in_int64 (fields (fst (final (OneOff rt (c, w))))) /\
  (forall ret, returned (OneOff rt (c, w)) = Some ret -> in_int64 ret) /\
  in_int64 (fields (fst (final (Run rt0 events (c, w))))) /\
  (forall consumer : option (FieldsFunc W),
     in_int64 (fields (New consumer))).
Proof.
  intros Hc.
  pose (P := fun c' : Collector W => in_int64 (fields c')).
  assert (HP1 : forall rt c', P c' -> P (collect rt c'))
    by (intros; by apply collect_in_int64).
  assert (HP2 : forall c', P c' -> P (set_fields Fields_zero c'))
    by (intros; apply Fields_zero_in_int64).
  split; [by apply (outputStats_keeps P HP1 rt (c, w))|].
  split; [by apply (OneOff_keeps P HP1 HP2 rt (c, w))|].
  split; [|split].
  - intros ret. unfold OneOff, outputStats.
    destruct (fieldsFunc (collect rt c)) as [k|]; [|done].
    destruct (k (fields (collect rt c)) w) as [f' w'].
    intros [= <-]. by apply collect_in_int64.
  - by apply (Run_keeps P HP1 rt0 events (c, w)).
  - intros consumer. apply Fields_zero_in_int64.
Qed.

Lemma snapshot_stays_in_int64_witness :
  in_int64 (fields sampler0) /\
  in_int64 (fields (fst (final
    (Run reading7 [Tick (ticker_of sampler0) reading9; Close 1%nat]
       (sampler0, []))))) /\
  Frees (fields (fst (final
    (Run reading7 [Tick (ticker_of sampler0) reading9; Close 1%nat]
       (sampler0, []))))) =
  5 - 2 ^ 63.
Proof.
  split; [apply Fields_zero_in_int64|]. split; [|reflexivity].
  apply (snapshot_stays_in_int64 sampler0 reading7 reading9
           [Tick (ticker_of sampler0) reading9; Close 1%nat] []).
  apply Fields_zero_in_int64.
Defined.

Lemma collect_config {W : Type} rt (c : Collector W) :
  config (collect rt c) = config c.
Proof.
  unfold config.
  by rewrite collect_PauseDur, collect_EnableCPU, collect_EnableMem,
    collect_EnableGC, collect_Done, collect_fieldsFunc.
Qed.

(** X3. The sampler's own code never changes its configuration: after
    [outputStats], [OneOff] or [Run], however the call ends (return,
    panic, still waiting), the interval, the three flags, the stop
    channel and the consumer are the ones the call started with. Only
    the snapshot is written. *)
Theorem configuration_never_written {W : Type} (c : Collector W)
  rt0 rt events w :
  config (fst (final (outputStats rt (c, w)))) = config c /\
  config (fst (final (OneOff rt (c, w)))) = config c /\
  config (fst (final (Run rt0 events (c, w)))) = config c.
Proof.
  pose (P := fun c' : Collector W => config c' = config c).
  assert (HP1 : forall rt c', P c' -> P (collect rt c')).
  { intros rt' c' Hc'. unfold P. by rewrite collect_config. }
  assert (HP2 : forall c', P c' -> P (set_fields Fields_zero c'))
    by (intros c' Hc'; exact Hc').
  split; [by apply (outputStats_keeps P HP1 rt (c, w))|].
  split; [by apply (OneOff_keeps P HP1 HP2 rt (c, w))|].
  by apply (Run_keeps P HP1 rt0 events (c, w)).
Qed.

(** ** The categories of a cycle *)

(** X4. A cycle overwrites the CPU fields with the runtime's goroutine
    and cgo-call counts exactly when [EnableCPU] is set, and the 19
    memory fields with the counters of [runtime.ReadMemStats] exactly
    when [EnableMem] is set; otherwise the fields keep their values. The
    two categories do not interfere: the CPU flag has no effect on the
    memory and GC fields, and the memory and GC flags have none on the
    CPU fields. *)
Theorem cycle_writes_enabled_categories {W : Type} (c : Collector W) rt w :
  cpuFields (fields (fst (final (outputStats rt (c, w))))) =
    (if EnableCPU c
     then map int64 [runtime.NumGoroutine rt; runtime.NumCgoCall rt]
     else cpuFields (fields c)) /\
  memFields (fields (fst (final (outputStats rt (c, w))))) =
    (if EnableMem c
     then map int64 (memCounters (runtime.ReadMemStats rt))
     else memFields (fields c)) /\
  (forall b,
     memFields (fields (fst (final
       (outputStats rt (set_EnableCPU b c, w))))) =
     memFields (fields (fst (final (outputStats rt (c, w))))) /\
     gcFields (fields (fst (final
       (outputStats rt (set_EnableCPU b c, w))))) =
     gcFields (fields (fst (final (outputStats rt (c, w)))))) /\
  (forall b b',
     cpuFields (fields (fst (final
       (outputStats rt (set_EnableGC b' (set_EnableMem b c), w))))) =
     cpuFields (fields (fst (final (outputStats rt (c, w)))))).
Proof.
  rewrite outputStats_final.
  split; [apply collect_cpuFields|]. split; [apply collect_memFields|].
  split.
  - intros b. rewrite !outputStats_final.
    by rewrite !collect_memFields, !collect_gcFields.
  - intros b b'. rewrite !outputStats_final.
    by rewrite !collect_cpuFields.
Qed.

(** X5. With the three categories enabled (the default of [New]) a cycle
    overwrites all 28 fields: the snapshot it leaves depends on the
    runtime reading only, not on what the snapshot held before. *)
Theorem full_cycle_forgets_previous_snapshot {W : Type}
  (c : Collector W) rt (f1 f2 : Fields) w1 w2 :
  EnableCPU c = true -> EnableMem c = true -> EnableGC c = true ->
  fields (fst (final (outputStats rt (set_fields f1 c, w1)))) =
  fields (fst (final (outputStats rt (set_fields f2 c, w2)))).
Proof.
  intros Hcpu Hmem Hgc. rewrite !outputStats_final.
  destruct c as [d cpu mem gc dn k f]. simpl in *. subst cpu mem gc.
  reflexivity.
Qed.

Lemma full_cycle_forgets_previous_snapshot_witness :
  (EnableCPU sampler0 = true /\ EnableMem sampler0 = true /\
   EnableGC sampler0 = true) /\
  fields ran_once.1 <> Fields_zero /\
  fields (fst (final
    (outputStats reading9 (set_fields (fields ran_once.1) sampler0, [])))) =
  fields (fst (final
    (outputStats reading9 (set_fields Fields_zero sampler0, [])))).
Proof.
  split; [by vm_compute|]. split.
  - intros Heq. apply (f_equal Alloc) in Heq. vm_compute in Heq.
    discriminate.
  - by apply full_cycle_forgets_previous_snapshot.
Defined.

(** X6. A second cycle on the same runtime reading changes nothing: the
    snapshot after two cycles is the snapshot after one, whatever the
    flags and whatever the consumer does in between. *)
Theorem cycle_idempotent_on_same_reading {W : Type}
  (c : Collector W) rt w w' :
  fst (final (outputStats rt (fst (final (outputStats rt (c, w))), w'))) =
  fst (final (outputStats rt (c, w))).
Proof.
  rewrite !outputStats_final. unfold collect.
  destruct c as [d [] [] [] dn k f]; reflexivity.
Qed.

(** ** A nil consumer *)

(** X7. On a collector whose consumer is nil (the zero value
    [Collector{}], built without [New]) every entry point panics at the
    call of the consumer, after the writes of the cycle: [outputStats]
    panics, [OneOff] panics without returning a snapshot and without
    resetting the one just written, and [Run] panics in its first cycle,
    before it creates the ticker or looks at any event. *)
Theorem nil_consumer_panics {W : Type} (c : Collector W) rt events w :
  fieldsFunc c = None ->
  outputStats rt (c, w) = Panics (collect rt c, w) /\
  OneOff rt (c, w) = Panics (collect rt c, w) /\
  Run rt events (c, w) = Panics (collect rt c, w).
Proof.
  intros Hnil. unfold Run, OneOff.
  rewrite outputStats_None by done. done.
Qed.

Lemma nil_consumer_panics_witness :
  let c := set_EnableCPU true (Collector_zero (W:=unit)) in
  fieldsFunc c = None /\
  OneOff reading7 (c, tt) = Panics (collect reading7 c, tt) /\
  cpuFields (fields (collect reading7 c)) = [7; 2] /\
  Run reading7 [Tick (ticker_of c) reading9] (Collector_zero, tt) =
    Panics (Collector_zero, tt).
Proof.
  intros c. split; [reflexivity|].
  split; [by apply (nil_consumer_panics c reading7 [])|].
  split; [reflexivity|].
  by apply (nil_consumer_panics Collector_zero reading7
              [Tick (ticker_of c) reading9] tt).
Defined.

(** ** Successive one-off reads *)

Lemma set_fields_collect {W : Type} rt (c : Collector W) (f : Fields) :
  set_fields f (collect rt c) = set_fields f c.
Proof. unfold collect. destruct c as [d [] [] [] dn k f0]; reflexivity. Qed.

(** X8. Nothing carries over from one [OneOff] to the next: after any
    [OneOff] call, the next one behaves as on the same sampler with a
    zero snapshot. The snapshot it returns depends neither on what the
    first call read from the runtime nor on what the snapshot held
    before the first call, and its disabled categories are zero. *)
Theorem OneOff_after_OneOff_starts_fresh {W : Type}
  (k : FieldsFunc W) (c : Collector W) rt1 rt2 w :
  fieldsFunc c = Some k ->
  let s1 := final (OneOff rt1 (c, w)) in
  let fresh := set_fields Fields_zero c in
  s1 = (fresh, snd (k (fields (collect rt1 c)) w)) /\
  returned (OneOff rt2 s1) = Some (fields (collect rt2 fresh)) /\
  (EnableCPU c = false ->
   cpuFields (fields (collect rt2 fresh)) = cpuFields Fields_zero) /\
  (EnableMem c = false ->
   memFields (fields (collect rt2 fresh)) = memFields Fields_zero) /\
  (EnableMem c && EnableGC c = false ->
   gcFields (fields (collect rt2 fresh)) = gcFields Fields_zero).
Proof.
  intros Hk s1 fresh.
  assert (Hs1 : s1 = (fresh, snd (k (fields (collect rt1 c)) w))).
  { subst s1 fresh. rewrite (OneOff_Some k) by done. simpl.
    by rewrite set_fields_collect. }
  split; [exact Hs1|]. split; [|split; [|split]].
  - rewrite Hs1, (OneOff_Some k) by done. done.
  - intros Hoff. by rewrite collect_cpuFields; simpl; rewrite Hoff.
  - intros Hoff. by rewrite collect_memFields; simpl; rewrite Hoff.
  - intros Hoff. by rewrite collect_gcFields; simpl; rewrite Hoff.
Qed.

Lemma OneOff_after_OneOff_starts_fresh_witness :
  let k := recording (fun _ => Fields_zero) in
  fieldsFunc stale_state.1 = Some k /\
  cpuFields (fields stale_state.1) = [7; 2] /\
  cpuFields <$> returned (OneOff reading9 stale_state) = Some [7; 2] /\
  cpuFields <$> returned
    (OneOff reading7 (final (OneOff reading9 stale_state))) = Some [0; 0].
Proof.
  intros k. split; [reflexivity|]. split; [reflexivity|].
  split; [reflexivity|].
  destruct (OneOff_after_OneOff_starts_fresh k stale_state.1
              reading9 reading7 stale_state.2)
    as (_ & Hret & Hcpu & _); [reflexivity|].
  change (stale_state.1, stale_state.2) with stale_state in Hret.
  rewrite Hret. apply (f_equal Some), Hcpu. reflexivity.
Defined.

(** ** The loop without a stop channel *)

(** With a nil [c.Done] the loop turns every delivery of its ticker into
    a cycle, skips every other event and keeps waiting. *)
Lemma loop_nil_Done {W : Type} (k : FieldsFunc W) tick events
  (s : state W) :
  Done (fst s) = None -> fieldsFunc (fst s) = Some k ->
  loop tick events s = Blocks (cycles k (ticks_of tick events) s).
Proof.
  revert s. induction events as [|e events IH]; intros [c w] Hd Hk; [done|].
  destruct e as [t rt|ch]; cbn [loop ticks_of omap list_omap].
  - case_decide; [|by apply IH].
    rewrite (outputStats_Some k) by done.
    rewrite IH; [done| |].
    + by rewrite cycle_Done.
    + by rewrite cycle_fieldsFunc.
  - simpl in Hd. rewrite decide_False by (simpl; congruence).
    by apply IH.
Qed.

(** X9. [Run] on a sampler as [New] returns it (no stop channel, 10
    second interval, a consumer that is never nil) neither returns nor
    panics: after any finite run of events it is still waiting in its
    select, having run its first cycle and one cycle for each tick of
    its ticker among the events. Closing any channel has no effect on
    it. *)
Theorem Run_on_New_waits_forever {W : Type}
  (consumer : option (FieldsFunc W)) rt0 events w :
  Run rt0 events (New consumer, w) =
  Blocks (cycles (default noop consumer)
            (rt0 :: ticks_of (ticker_of (New consumer)) events)
            (New consumer, w)).
Proof.
  rewrite (Run_Some (default noop consumer)).
  - apply (loop_nil_Done (default noop consumer)).
    + by rewrite cycle_Done.
    + rewrite cycle_fieldsFunc. by destruct consumer.
  - by destruct consumer.
  - reflexivity.
Qed.

(** ** More on the flat key-value form *)

Lemma fromMap_after_ToMap (f : Fields) : fromMap (ToMap f) = Some f.
Proof. by destruct f; vm_compute. Qed.

(** X10. [ToMap] loses nothing and keeps the types apart: two snapshots
    with the same map are the same snapshot, and in the map of a
    snapshot the entry under ["mem.gc.cpu_fraction"] is the only
    [float64], every other entry is an [int64]. *)
Theorem ToMap_injective_and_typed (f1 f2 : Fields) :
  (ToMap f1 = ToMap f2 -> f1 = f2) /\
  (forall key v,
     ToMap f1 !! key = Some v ->
     match v with
     | VFloat64 x => key = "mem.gc.cpu_fraction" /\ x = GCCPUFraction f1
     | VInt64 _ => key <> "mem.gc.cpu_fraction"
     end).
Proof.
  split.
  - intros Heq.
    assert (Hsome : Some f1 = Some f2)
      by (by rewrite <- !fromMap_after_ToMap, Heq).
    by inversion Hsome.
  - intros key v Hlook.
    assert (Hnodup : NoDup (map fst Fields_tags))
      by (apply (bool_decide_unpack _); by vm_compute).
    change (ToMap f1) with
      (list_to_map (map (fun tg => (tg.1, tg.2 f1)) Fields_tags)
         : gmap string Value) in Hlook.
    apply elem_of_list_to_map in Hlook; [|exact Hnodup].
    apply list_elem_of_In in Hlook. simpl in Hlook.
    repeat (destruct Hlook as [[= <- <-]|Hlook]; [done|]).
    done.
Qed.

(** ** More on the recent-pause index *)

Lemma pauseIndex_succ (n : Z) :
  pauseIndex (uint32 (n + 1)) = (pauseIndex n + 1) mod 256.
Proof.
  rewrite !pauseIndex_mod. unfold uint32.
  rewrite Zplus_mod, Z.mod_mod_divide by (exists (2 ^ 24); reflexivity).
  rewrite <- Zplus_mod, Zplus_mod_idemp_l.
  f_equal. lia.
Qed.

(** X11. The slot [outputGCStats] reads always exists: for every cycle
    count the index is inside the 256-slot array, so the [PauseNs] field
    is the narrowing of one of the buffer's entries. Before the first GC
    (count 0) that is the last slot, number 255. One more GC cycle moves
    the index one slot up, wrapping from 255 to 0, also when the
    [uint32] count itself wraps; counts 256 apart read the same slot. *)
Theorem pauseIndex_circular_in_bounds {W : Type} (c : Collector W)
  (m : runtime.MemStats) (n : Z) :
  length (runtime.PauseNs m) = 256%nat ->
  (Z.to_nat (pauseIndex (runtime.NumGC m)) < length (runtime.PauseNs m))%nat /\
  (exists v, In v (runtime.PauseNs m) /\
             PauseNs (fields (outputGCStats m c)) = int64 v) /\
  (runtime.NumGC m = 0 ->
   PauseNs (fields (outputGCStats m c)) =
   int64 (nth 255 (runtime.PauseNs m) 0)) /\
  pauseIndex (uint32 (n + 1)) = (pauseIndex n + 1) mod 256 /\
  pauseIndex (n + 256) = pauseIndex n.
Proof.
  intros Hlen.
  assert (Hlt : (Z.to_nat (pauseIndex (runtime.NumGC m)) <
                 length (runtime.PauseNs m))%nat).
  { rewrite Hlen. pose proof (pauseIndex_range (runtime.NumGC m)). lia. }
  split; [exact Hlt|]. split; [|split; [|split]].
  - exists (PauseNs_at m (pauseIndex (runtime.NumGC m))).
    split; [|reflexivity]. unfold PauseNs_at. by apply nth_In.
  - intros Hzero. unfold outputGCStats. cbn [set_fields fields PauseNs].
    by rewrite Hzero.
  - apply pauseIndex_succ.
  - rewrite !pauseIndex_mod.
    replace (n + 256 + 255) with (n + 255 + 1 * 256) by lia.
    apply Z_mod_plus_full.
Qed.

Lemma pauseIndex_circular_in_bounds_witness :
  length (runtime.PauseNs mem300) = 256%nat /\
  (Z.to_nat (pauseIndex (runtime.NumGC mem300)) <
   length (runtime.PauseNs mem300))%nat /\
  pauseIndex (uint32 (2 ^ 32 - 1 + 1)) = (pauseIndex (2 ^ 32 - 1) + 1) mod 256 /\
  pauseIndex (2 ^ 32 - 1) = 254.
Proof.
  split; [reflexivity|].
  destruct (pauseIndex_circular_in_bounds sampler0 mem300 (2 ^ 32 - 1))
    as (Hlt & _ & _ & Hsucc & _); [reflexivity|].
  split; [exact Hlt|]. split; [exact Hsucc|reflexivity].
Defined.

(** ** The loop with a stop channel *)

(** Until its own stop channel is closed, the loop turns every delivery
    of its ticker into a cycle and skips every other event. *)
Lemma loop_before_stop {W : Type} (k : FieldsFunc W) tick ch events
  (s : state W) :
  Done (fst s) = Some ch -> fieldsFunc (fst s) = Some k ->
  ~ In (Close ch) events ->
  loop tick events s = Blocks (cycles k (ticks_of tick events) s).
Proof.
  revert s. induction events as [|e events IH];
    intros [c w] Hd Hk Hnot; [done|].
  destruct e as [t rt|ch']; cbn [loop ticks_of omap list_omap].
  - case_decide.
    + rewrite (outputStats_Some k) by done.
      rewrite IH; [done| | |].
      * by rewrite cycle_Done.
      * by rewrite cycle_fieldsFunc.
      * intros Hin. apply Hnot. by right.
    + apply IH; [done|done|]. intros Hin. apply Hnot. by right.
  - simpl in Hd. rewrite decide_False.
    + apply IH; [done|done|]. intros Hin. apply Hnot. by right.
    + simpl. intros Heq. apply Hnot. left. congruence.
Qed.

(** X12. [Run] on a sampler with a consumer, a positive interval and a
    stop channel never panics. As long as the stop channel has not been
    closed it waits, having run one cycle at the start and one per tick
    of its ticker; closes of other channels are ignored. At the first close of its stop
    channel it returns, and nothing that happens afterwards, tick or
    close, causes another cycle. *)
Theorem Run_stops_at_first_close {W : Type}
  (k : FieldsFunc W) (c : Collector W) ch rt0 before after w :
  fieldsFunc c = Some k -> 0 < PauseDur c -> Done c = Some ch ->
  ~ In (Close ch) before ->
  Run rt0 before (c, w) =
    Blocks (cycles k (rt0 :: ticks_of (ticker_of c) before) (c, w)) /\
  Run rt0 (before ++ Close ch :: after) (c, w) =
    Returns tt (cycles k (rt0 :: ticks_of (ticker_of c) before) (c, w)).
Proof.
  intros Hk Hpos Hd Hnot.
  assert (Hloop : loop (ticker_of c) before (cycle k rt0 (c, w)) =
                  Blocks (cycles k (ticks_of (ticker_of c) before)
                            (cycle k rt0 (c, w)))).
  { apply (loop_before_stop k (ticker_of c) ch);
      [|by rewrite cycle_fieldsFunc|done].
    by rewrite cycle_Done. }
  rewrite !(Run_Some k) by done. split; [exact Hloop|].
  rewrite loop_app, Hloop. cbn [loop].
  rewrite decide_True; [done|].
  change (Done (fst (cycles k (rt0 :: ticks_of (ticker_of c) before)
                       (c, w))) = Some ch).
  by rewrite cycles_Done.
Qed.

Lemma Run_stops_at_first_close_witness :
  let k := recording (fun _ => Fields_zero) in
  let tick := ticker_of sampler0 in
  let before := [Close 2%nat; Tick tick reading9; Close 0%nat] in
  let after := [Tick tick reading7; Close 1%nat; Tick tick reading9] in
  (fieldsFunc sampler0 = Some k /\ 0 < PauseDur sampler0 /\
   Done sampler0 = Some 1%nat /\ ~ In (Close 1%nat) before) /\
  Run reading7 (before ++ Close 1%nat :: after) (sampler0, []) =
    Returns tt (cycles k [reading7; reading9] (sampler0, [])) /\
  length (snd (final
    (Run reading7 (before ++ Close 1%nat :: after) (sampler0, [])))) = 2%nat.
Proof.
  intros k tick before after.
  assert (Hnot : ~ In (Close 1%nat) before).
  { intros [Heq|[Heq|[Heq|[]]]]; discriminate. }
  split.
  { split; [reflexivity|]. split; [by vm_compute|].
    split; [reflexivity|exact Hnot]. }
  split; [|reflexivity].
  apply (Run_stops_at_first_close k sampler0 1%nat reading7 before after []);
    [reflexivity|by vm_compute|reflexivity|exact Hnot].
Defined.
